(** * generate_qiime_manifest.py: a shallow embedding and its properties

    The script builds a QIIME2 manifest (a CSV file) from a list of FASTQ
    files.  This development embeds [infer_direction], the [ManifestFile]
    class and [main] as Rocq functions over an explicit model of the
    filesystem and of standard output, and proves how they behave.

    Modelling conventions.
    - A Python [str] is a [string]; a text file is the string its text layer
      yields (decoded, newlines already translated).
    - An exception is a value of [exn]; a call that may raise returns a
      [result].
    - The filesystem is a finite map from absolute, lexically resolved
      component lists to nodes; [..] is resolved lexically.  Permissions,
      symbolic links and I/O failures while writing are outside the model.
      The working directory and its ancestors always exist as directories.
    - [pathlib] is the one of Python 3.12 and before.
    - Outside the model: a path that runs through a regular file, bytes
      that do not decode, characters that do not encode, and a write or a
      [print] that fails.  A carriage return is read back as a newline in
      text mode; the statements about reading written lines back exclude
      it. *)

From Stdlib Require Import ZArith Ascii String.
From stdpp Require Import gmap strings list.

Local Open Scope string_scope.
Local Open Scope list_scope.
Local Open Scope stdpp_scope.

(** ** Python values and exceptions *)

(** The exceptions the script can meet.  [InferenceError] is the script's own
    class (a [ValueError]); the others are built in. *)
Inductive exn : Type :=
| IndexError
| TypeError
| NameError (name : string)
| InferenceError (msg : string)
| FileNotFoundError
| IsADirectoryError
| StopIteration.

Inductive result (A : Type) : Type :=
| Ok (a : A)
| Raise (e : exn).
Arguments Ok {A} a.
Arguments Raise {A} e.

#[global] Instance result_ret : MRet result := fun A a => Ok a.

#[global] Instance result_bind : MBind result := fun A B k r =>
  match r with
  | Ok a => k a
  | Raise e => Raise e
  end.

(** The status the interpreter exits with: the value [main] returns, or 1
    after an uncaught exception. *)
Definition exit_status (r : result Z) : Z :=
  match r with
  | Ok c => c
  | Raise _ => 1%Z
  end.

(** ** Strings *)

Definition nl : ascii := "010"%char.
Definition newline : string := String nl EmptyString.

(** [s.split(sep)] for a one-character separator: never empty, one more
    field than there are separators. *)
Fixpoint split (sep : ascii) (s : string) : list string :=
  match s with
  | EmptyString => [EmptyString]
  | String c s' =>
      if Ascii.eqb c sep then EmptyString :: split sep s'
      else match split sep s' with
           | [] => [String c EmptyString]
           | f :: fs => String c f :: fs
           end
  end.

(** [l[i]] for a non-negative literal index. *)
Definition getitem {A} (l : list A) (i : nat) : result A :=
  match l !! i with
  | Some x => Ok x
  | None => Raise IndexError
  end.

(** [s[-1]]: the last character, as a string of length one. *)
Fixpoint str_last (s : string) : result string :=
  match s with
  | EmptyString => Raise IndexError
  | String c EmptyString => Ok (String c EmptyString)
  | String _ s' => str_last s'
  end.

(** [s.startswith(p)]. *)
Definition startswith (p s : string) : bool := String.prefix p s.

(** [s.rfind(c)], with [None] for -1. *)
Fixpoint rfind (c : ascii) (s : string) : option nat :=
  match s with
  | EmptyString => None
  | String a s' =>
      match rfind c s' with
      | Some i => Some (S i)
      | None => if Ascii.eqb a c then Some 0%nat else None
      end
  end.

(** [sep.join(l)]. *)
Fixpoint join (sep : string) (l : list string) : string :=
  match l with
  | [] => EmptyString
  | [x] => x
  | x :: l' => x +:+ sep +:+ join sep l'
  end.

(** Iterating over a text file, and [readlines()]: the lines with their
    newline kept; a last line without newline is a line too. *)
Fixpoint file_lines (s : string) : list string :=
  match s with
  | EmptyString => []
  | String c s' =>
      if Ascii.eqb c nl then String c EmptyString :: file_lines s'
      else match file_lines s' with
           | [] => [String c EmptyString]
           | l :: ls => String c l :: ls
           end
  end.

(** ** pathlib paths *)

(** A parsed path: whether it is rooted, and its components.  Parsing drops
    empty and [.] components and keeps [..]. *)
Record Path : Type := mkPath { is_abs : bool; parts : list string }.

Definition keep_part (c : string) : bool :=
  negb (String.eqb c EmptyString || String.eqb c ".").

Definition components (s : string) : list string :=
  List.filter keep_part (split "/" s).

(** [pathlib.Path(s)]. *)
Definition PurePath (s : string) : Path :=
  {| is_abs := startswith "/" s; parts := components s |}.

(** [str(p)]. *)
Definition path_str (p : Path) : string :=
  if is_abs p then "/" +:+ join "/" (parts p)
  else match parts p with
       | [] => "."
       | _ => join "/" (parts p)
       end.

(** [p.name]: the final component, empty when there is none. *)
Definition path_name (p : Path) : string :=
  default EmptyString (last (parts p)).

(** [p.suffix] and [p.stem] (pathlib of Python 3.12 and before):
    cut the name at its last dot unless that dot is first or last. *)
Definition suffix_index (n : string) : option nat :=
  match rfind "." n with
  | Some i => if ((0 <? i) && (i <? String.length n - 1))%nat then Some i else None
  | None => None
  end.

Definition path_suffix (p : Path) : string :=
  let n := path_name p in
  match suffix_index n with
  | Some i => String.substring i (String.length n - i) n
  | None => EmptyString
  end.

Definition path_stem (p : Path) : string :=
  let n := path_name p in
  match suffix_index n with
  | Some i => String.substring 0%nat i n
  | None => n
  end.

(** ** The filesystem and standard output *)

Inductive node : Type :=
| File (content : string)
| Dir.

Record World : Type := mkWorld {
  cwd : list string;
  fs : gmap (list string) node;
  stdout : list string
}.

Definition set_fs (w : World) (m : gmap (list string) node) : World :=
  {| cwd := cwd w; fs := m; stdout := stdout w |}.

(** [print(s)] and [print(s, end=...)]: one chunk on standard output. *)
Definition print (w : World) (s : string) : World :=
  {| cwd := cwd w; fs := fs w; stdout := stdout w ++ [s +:+ newline] |}.

Definition print_end (w : World) (s : string) : World :=
  {| cwd := cwd w; fs := fs w; stdout := stdout w ++ [s] |}.

(** Resolution of a path string by the operating system. *)
Definition walk (k : list string) (c : string) : list string :=
  if String.eqb c ".." then removelast k else k ++ [c].

Definition resolve (w : World) (s : string) : list string :=
  fold_left walk (components s) (if startswith "/" s then [] else cwd w).

Definition is_dir (w : World) (k : list string) : bool :=
  bool_decide (k `prefix_of` cwd w) ||
  match fs w !! k with
  | Some Dir => true
  | _ => false
  end.

Definition is_file (w : World) (k : list string) : bool :=
  negb (bool_decide (k `prefix_of` cwd w)) &&
  match fs w !! k with
  | Some (File _) => true
  | _ => false
  end.

(** [os.stat] succeeds. *)
Definition os_exists (w : World) (s : string) : bool :=
  negb (String.eqb s EmptyString) &&
  (is_dir w (resolve w s) || is_file w (resolve w s)).

(** [p.exists()]. *)
Definition path_exists (w : World) (p : Path) : bool :=
  os_exists w (path_str p).

(** [p.absolute()]: the working directory is put in front of a relative
    path; nothing is normalised. *)
Definition path_absolute (w : World) (p : Path) : Path :=
  if is_abs p then p else {| is_abs := true; parts := cwd w ++ parts p |}.

(** [open(s, "r")] followed by reading: the content of the file. *)
Definition open_r (w : World) (s : string) : result string :=
  if String.eqb s EmptyString then Raise FileNotFoundError
  else
    let k := resolve w s in
    if is_dir w k then Raise IsADirectoryError
    else match fs w !! k with
         | Some (File c) => Ok c
         | _ => Raise FileNotFoundError
         end.

(** [open(s, "w")]: the file is created or truncated; the handle is the
    resolved key. *)
Definition open_w (w : World) (s : string) : result (list string * World) :=
  if String.eqb s EmptyString then Raise FileNotFoundError
  else
    let k := resolve w s in
    if is_dir w k then Raise IsADirectoryError
    else if is_dir w (removelast k)
         then Ok (k, set_fs w (<[k := File EmptyString]> (fs w)))
         else Raise FileNotFoundError.

(** [open(s, "a")]: the file is created when absent and kept otherwise. *)
Definition open_a (w : World) (s : string) : result (list string * World) :=
  if String.eqb s EmptyString then Raise FileNotFoundError
  else
    let k := resolve w s in
    if is_dir w k then Raise IsADirectoryError
    else if is_dir w (removelast k)
         then match fs w !! k with
              | Some (File c) => Ok (k, w)
              | _ => Ok (k, set_fs w (<[k := File EmptyString]> (fs w)))
              end
         else Raise FileNotFoundError.

(** [file.write(data)] on an open handle. *)
Definition fwrite (fh : list string) (w : World) (data : string) : World :=
  match fs w !! fh with
  | Some (File c) => set_fs w (<[fh := File (c +:+ data)]> (fs w))
  | _ => w
  end.

(** ** Direction *)

Inductive Direction : Type :=
| Forward
| Reverse
| Unknown.

(** [direction.value]. *)
Definition value (d : Direction) : string :=
  match d with
  | Forward => "forward"
  | Reverse => "reverse"
  | Unknown => "Unknown"
  end.

(** ** infer_direction *)

(** What [member_number] holds: the integer it starts with, or the string a
    header gave. *)
Inductive pyval : Type :=
| PyInt (z : Z)
| PyStr (s : string).

(** [member_number == s] for a string literal [s]. *)
Definition eq_str (v : pyval) (s : string) : bool :=
  match v with
  | PyInt _ => false
  | PyStr t => String.eqb t s
  end.

(** [lambda x: x.split(":")[4][-1]]. *)
Definition old_format (x : string) : result string :=
  f ← getitem (split ":" x) 4; str_last f.

(** [lambda x: x.split(" ")[1].split(":")[0]]. *)
Definition new_format (x : string) : result string :=
  f ← getitem (split " " x) 1; getitem (split ":" f) 0.

(** The [try] statement run on a header line.  Its first handler takes every
    [IndexError] of the body and runs [old_format] outside any protection.
    The second handler is left with [TypeError]; building its message calls
    the global [script_basename], which the module does not define. *)
Definition try_formats (line : string) : result pyval :=
  match new_format line with
  | Ok m => Ok (PyStr m)
  | Raise IndexError => m ← old_format line; Ok (PyStr m)
  | Raise TypeError => Raise (NameError "script_basename")
  | Raise e => Raise e
  end.

(** The [for] loop over the lines, left by [break] at the first header;
    the result is the final [member_number]. *)
Fixpoint scan (lines : list string) (member_number : pyval) : result pyval :=
  match lines with
  | [] => Ok member_number
  | line :: lines' =>
      if startswith "@" line then try_formats line
      else scan lines' member_number
  end.

Definition infer_direction (w : World) (filepath : Path) (n : nat)
  : result Direction :=
  content ← open_r w (path_str filepath);
  member_number ← scan (take n (file_lines content)) (PyInt 0);
  if eq_str member_number "1" then Ok Forward
  else if eq_str member_number "2" then Ok Reverse
  else Ok Unknown.

(** ** ManifestFile *)

Definition HEADER : string :=
  "sample-id,absolute-filepath,direction" +:+ newline.

Record ManifestFile : Type := mkManifestFile {
  _path : Path;
  name : string;
  exists_ : bool;
  _lines : list string;
  _unwritten_lines : list string
}.

(** [ManifestFile(filepath)]. *)
Definition init (w : World) (filepath : Path) : ManifestFile :=
  {| _path := filepath;
     name := path_name filepath;
     exists_ := path_exists w filepath;
     _lines := [];
     _unwritten_lines := [HEADER] |}.

(** [ManifestFile.from_file(filepath)]. *)
Definition from_file (w : World) (filepath : Path) : result ManifestFile :=
  content ← open_r w (path_str filepath);
  let lines := [HEADER] ++ file_lines content in
  let new := init w filepath in
  Ok {| _path := _path new;
        name := name new;
        exists_ := true;
        _lines := lines;
        _unwritten_lines := [] |}.

(** The row [add_file] formats. *)
Definition row (name file_path : string) (direction : Direction) : string :=
  name +:+ "," +:+ file_path +:+ "," +:+ value direction +:+ newline.

Definition add_file (self : ManifestFile) (name' file_path : string)
    (direction : Direction) : ManifestFile :=
  {| _path := _path self;
     name := name self;
     exists_ := exists_ self;
     _lines := _lines self;
     _unwritten_lines := _unwritten_lines self ++ [row name' file_path direction] |}.

(** [extend_manifest]: the object is returned as it is left, also when a
    call of [infer_direction] raises. *)
Fixpoint extend_manifest (w : World) (self : ManifestFile)
    (files : list Path) (infer : bool) : result unit * ManifestFile :=
  match files with
  | [] => (Ok tt, self)
  | file :: files' =>
      if infer then
        match infer_direction w file 100 with
        | Ok d =>
            extend_manifest w
              (add_file self (path_stem file)
                 (path_str (path_absolute w file)) d) files' infer
        | Raise e => (Raise e, self)
        end
      else
        extend_manifest w
          (add_file self (path_stem file)
             (path_str (path_absolute w file)) Unknown) files' infer
  end.

(** The object after a flush: the unwritten lines are moved behind the
    written ones. *)
Definition flushed (self : ManifestFile) : ManifestFile :=
  {| _path := _path self;
     name := name self;
     exists_ := exists_ self;
     _lines := _lines self ++ _unwritten_lines self;
     _unwritten_lines := [] |}.

(** [create]. *)
Definition create (self : ManifestFile) (w : World)
  : result unit * ManifestFile * World :=
  match open_w w (name self) with
  | Raise e => (Raise e, self, w)
  | Ok (file, w1) =>
      (Ok tt, flushed self, fold_left (fwrite file) (_unwritten_lines self) w1)
  end.

(** [update]. *)
Definition update (self : ManifestFile) (w : World)
  : result unit * ManifestFile * World :=
  match open_a w (name self) with
  | Raise e => (Raise e, self, w)
  | Ok (file, w1) =>
      (Ok tt, flushed self, fold_left (fwrite file) (_unwritten_lines self) w1)
  end.

(** ** main *)

(** The namespace [parse_args] returns.  [-o] and [-a] exclude each other;
    an option that was not given is [None]. *)
Record Namespace : Type := mkNamespace {
  args_files : list string;
  args_output : option string;
  args_append : option string;
  args_infer : bool;
  args_no_overwrite : bool
}.

(** Truth value of an optional string: [None] and the empty string are
    false. *)
Definition truthy (o : option string) : bool :=
  match o with
  | Some s => negb (String.eqb s EmptyString)
  | None => false
  end.

Definition suffix_ok (file : Path) : bool :=
  String.eqb ".fastq" (path_suffix file).

(** The first part of [main], up to the construction of the manifest: it
    either returns an exit code after printing a message, or raises, or
    hands on the manifest.  Nothing is written to the filesystem here. *)
Definition setup (script_basename : string) (args : Namespace) (w : World)
  : (result Z * World) + ManifestFile :=
  let files := map PurePath (args_files args) in
  if negb (forallb suffix_ok files) then
    inl (Ok 1%Z,
         print w (script_basename +:+
           ": error: All files must be valid fastq files and their names must end with '.fastq'"))
  else if negb (forallb (path_exists w) files) then
    match List.find (fun x => negb (path_exists w x)) files with
    | Some x =>
        inl (Ok 2%Z,
             print w (script_basename +:+
               ": error: [Errrno 2] No such file or directory '" +:+
               path_str x +:+ "'"))
    | None => inl (Raise StopIteration, w)
    end
  else if truthy (args_append args) then
    let file := PurePath (default EmptyString (args_append args)) in
    if negb (path_exists w file) then
      inl (Ok 1%Z,
           print w (script_basename +:+ ": error: File " +:+ path_str file +:+
                    " not found!"))
    else
      match from_file w (PurePath (default EmptyString (args_append args))) with
      | Ok manifest => inr manifest
      | Raise e => inl (Raise e, w)
      end
  else if truthy (args_output args) then
    let file := PurePath (default EmptyString (args_output args)) in
    if args_no_overwrite args && path_exists w file then
      inl (Ok 1%Z,
           print w (script_basename +:+ ": error: File " +:+ path_str file +:+
                    " exists!"))
    else inr (init w (PurePath (default EmptyString (args_output args))))
  else inr (init w (PurePath "stdout")).

(** The second part of [main]: the entries are added, then the manifest is
    appended, created or printed. *)
Definition finish (args : Namespace) (manifest : ManifestFile) (w : World)
  : result Z * World :=
  let files := map PurePath (args_files args) in
  match extend_manifest w manifest files (args_infer args) with
  | (Raise e, _) => (Raise e, w)
  | (Ok _, manifest) =>
      if truthy (args_append args) then
        match update manifest w with
        | (Raise e, _, w') => (Raise e, w')
        | (Ok _, _, w') => (Ok 0%Z, w')
        end
      else if truthy (args_output args) then
        match create manifest w with
        | (Raise e, _, w') => (Raise e, w')
        | (Ok _, _, w') => (Ok 0%Z, w')
        end
      else (Ok 0%Z, fold_left print_end (_unwritten_lines manifest) w)
  end.

Definition main (script_basename : string) (args : Namespace) (w : World)
  : result Z * World :=
  match setup script_basename args w with
  | inl r => r
  | inr manifest => finish args manifest w
  end.

(** ** Example inputs *)

Definition lines_of (l : list string) : string :=
  fold_right (fun x acc => x +:+ newline +:+ acc) EmptyString l.

(** A post-Casava read of the first member, one of the second member, a
    pre-Casava header without final newline, a header with neither a space
    nor a colon, and a file without header. *)
Definition fwd_reads : string :=
  lines_of ["@EAS139:136:FC706VJ:2:2104:15343:197393 1:Y:18:ATCACG";
            "ACGT"; "+"; "IIII"].
Definition rev_reads : string :=
  lines_of ["@EAS139:136:FC706VJ:2:2104:15343:197393 2:Y:18:ATCACG";
            "ACGT"; "+"; "IIII"].
Definition old_reads : string := "@HWUSI-EAS100R:6:73:941:1973#0/1".
Definition bad_reads : string := lines_of ["@SEQ_ID"; "ACGT"; "+"; "IIII"].
Definition plain_reads : string := lines_of ["ACGT"; "TTTT"].

(** A manifest as [create] writes it. *)
Definition old_manifest : string :=
  HEADER +:+ row "s1" "/home/u/s1.fastq" Forward.

Definition w_ex : World :=
  {| cwd := ["home"; "u"];
     fs := list_to_map
             [(["home"; "u"; "fwd.fastq"], File fwd_reads);
              (["home"; "u"; "rev.fastq"], File rev_reads);
              (["home"; "u"; "old.fastq"], File old_reads);
              (["home"; "u"; "bad.fastq"], File bad_reads);
              (["home"; "u"; "plain.fastq"], File plain_reads);
              (["home"; "u"; "out"], Dir);
              (["home"; "u"; "out"; "old.csv"], File old_manifest)];
     stdout := [] |}.

(** What a loop of [file.write(line)] over [ls] sends to the file. *)
Definition written (ls : list string) : string :=
  fold_right String.append EmptyString ls.

(** How often the header line occurs in a buffer. *)
Definition header_count (ls : list string) : nat :=
  length (filter (fun l => l = HEADER) ls).

(** The written lines followed by the unwritten ones. *)
Definition buffers (self : ManifestFile) : list string :=
  _lines self ++ _unwritten_lines self.

(** What a successful [open] for writing or appending leaves: a regular
    file at the resolved key, in an unchanged directory structure. *)
Definition opened (w : World) (s : string) (k : list string) (c : string)
    (w1 : World) : Prop :=
  s <> EmptyString /\ k = resolve w s /\ is_dir w k = false /\
  is_dir w (removelast k) = true /\
  w1 = set_fs w (<[k := File c]> (fs w)).

(** How often a character occurs in a string. *)
Fixpoint count_char (c : ascii) (s : string) : nat :=
  match s with
  | EmptyString => 0%nat
  | String a s' => ((if Ascii.eqb a c then 1 else 0) + count_char c s')%nat
  end.

Definition cr : ascii := "013"%char.

(** No line break: neither a newline nor a carriage return, which reading
    in text mode turns into a newline. *)
Definition no_break (s : string) : Prop :=
  count_char nl s = 0%nat /\ count_char cr s = 0%nat.

(** A line as a text file holds it: one line break, the newline at its
    end. *)
Definition is_line (l : string) : Prop :=
  exists body, l = body +:+ newline /\ no_break body.

(** The direction [infer_direction] gives for a member-number token. *)
Definition direction_of (tok : string) : Direction :=
  if String.eqb tok "1" then Forward
  else if String.eqb tok "2" then Reverse
  else Unknown.

(** A line that is not a header. *)
Definition no_header (line : string) : Prop := startswith "@" line = false.

(** * Properties *)

(** ** Lists and strings *)

Lemma getitem_raises {A} (l : list A) i e :
  getitem l i = Raise e -> e = IndexError.
Proof.
  unfold getitem. destruct (l !! i); intros H; [discriminate | congruence].
Qed.

Lemma str_last_raises s e : str_last s = Raise e -> e = IndexError.
Proof.
  induction s as [|c [|c' s'] IH]; simpl; intros H;
    [congruence | discriminate | exact (IH H)].
Qed.

Lemma split_nonempty sep s : exists f fs', split sep s = f :: fs'.
Proof.
  induction s as [|c s' [f [fs' IH]]]; simpl; [eauto |].
  destruct (Ascii.eqb c sep); [eauto | rewrite IH; eauto].
Qed.

(** ** The two header formats *)

Section Formats.
Variable line : string.

Lemma new_format_raises e : new_format line = Raise e -> e = IndexError.
Proof.
  unfold new_format.
  destruct (getitem (split " " line) 1) as [f|e'] eqn:E1; simpl.
  - apply getitem_raises.
  - intros [= <-]. exact (getitem_raises _ _ _ E1).
Qed.

Lemma old_format_raises e : old_format line = Raise e -> e = IndexError.
Proof.
  unfold old_format.
  destruct (getitem (split ":" line) 4) as [f|e'] eqn:E1; simpl.
  - apply str_last_raises.
  - intros [= <-]. exact (getitem_raises _ _ _ E1).
Qed.

(** The [try] statement gives a string, or leaves with the [IndexError]
    of [old_format]. *)
Lemma try_formats_cases :
  (exists tok, new_format line = Ok tok /\ try_formats line = Ok (PyStr tok)) \/
  (new_format line = Raise IndexError /\
   exists tok, old_format line = Ok tok /\ try_formats line = Ok (PyStr tok)) \/
  (new_format line = Raise IndexError /\ old_format line = Raise IndexError /\
   try_formats line = Raise IndexError).
Proof.
  unfold try_formats.
  destruct (new_format line) as [tok|e] eqn:En; [left; eauto | right].
  rewrite (new_format_raises _ En) in *.
  destruct (old_format line) as [tok|e'] eqn:Eo; simpl.
  - left; eauto.
  - right. rewrite (old_format_raises _ Eo). auto.
Qed.

Lemma try_formats_raises e : try_formats line = Raise e -> e = IndexError.
Proof.
  destruct try_formats_cases as [(tok & _ & ->) | [(_ & tok & _ & ->) | (_ & _ & ->)]];
    congruence.
Qed.
End Formats.

(** ** The scan of the lines *)

Lemma scan_no_header lines m : Forall no_header lines -> scan lines m = Ok m.
Proof.
  induction 1 as [|line lines' Hl _ IH]; simpl; [reflexivity |].
  unfold no_header in Hl. rewrite Hl. exact IH.
Qed.

Lemma scan_first_header pre line post m :
  Forall no_header pre -> startswith "@" line = true ->
  scan (pre ++ line :: post) m = try_formats line.
Proof.
  induction 1 as [|l pre' Hl _ IH]; simpl; intros Hh.
  - rewrite Hh. reflexivity.
  - unfold no_header in Hl. rewrite Hl. exact (IH Hh).
Qed.

Lemma scan_raises lines m e : scan lines m = Raise e -> e = IndexError.
Proof.
  induction lines as [|line lines' IH]; simpl; [discriminate |].
  destruct (startswith "@" line); [apply try_formats_raises | exact IH].
Qed.

(** The lines of a file keep their newline, so the last character of a
    pre-Casava header that is followed by a newline is that newline. *)
Lemma old_format_newline :
  old_format (old_reads +:+ newline) = Ok newline /\
  try_formats (old_reads +:+ newline) = Ok (PyStr newline).
Proof. split; reflexivity. Qed.

(** [infer_direction] never raises the [InferenceError] its docstring
    announces. *)
Lemma infer_direction_never_InferenceError w filepath n msg :
  infer_direction w filepath n <> Raise (InferenceError msg).
Proof.
  unfold infer_direction.
  destruct (open_r w (path_str filepath)) as [content|e] eqn:Eo; simpl.
  - destruct (scan (take n (file_lines content)) (PyInt 0)) as [m|e] eqn:Es; simpl.
    + repeat case_match; discriminate.
    + rewrite (scan_raises _ _ _ Es). discriminate.
  - unfold open_r in Eo. repeat case_match; congruence.
Qed.

(** A first header that defeats both formats makes [infer_direction] leave
    with [IndexError]. *)
Lemma infer_direction_defeated w filepath n content pre line post :
  open_r w (path_str filepath) = Ok content ->
  take n (file_lines content) = pre ++ line :: post ->
  Forall no_header pre -> startswith "@" line = true ->
  new_format line = Raise IndexError -> old_format line = Raise IndexError ->
  infer_direction w filepath n = Raise IndexError.
Proof.
  intros Ho Ht Hpre Hh Hn Hold. unfold infer_direction.
  rewrite Ho. simpl. rewrite Ht, (scan_first_header _ _ _ _ Hpre Hh).
  unfold try_formats. rewrite Hn, Hold. reflexivity.
Qed.

(** ** Claims about [infer_direction] *)

(** C1.  On a file whose first header has neither a space nor four colons,
    both formats fail with an out-of-range index, and [infer_direction]
    leaves with that [IndexError]: the handler that would raise
    [InferenceError] belongs to the same [try] as the one running
    [old_format], so it never sees the second failure. *)
Theorem infer_direction_defeated_header_IndexError :
  let line := "@SEQ_ID" +:+ newline in
  file_lines bad_reads !! 0%nat = Some line /\
  new_format line = Raise IndexError /\
  old_format line = Raise IndexError /\
  infer_direction w_ex (PurePath "bad.fastq") 100 = Raise IndexError.
Proof. vm_compute. repeat split; reflexivity. Qed.

(** C5.  When the first header among the first [n] lines gives a token,
    by [new_format] or, that one failing, by [old_format], the result is
    [Forward] for the token 1, [Reverse] for 2 and [Unknown] for any other
    token; nothing is raised, and the lines after that header play no part. *)
Theorem infer_direction_token w filepath n content pre line post tok :
  open_r w (path_str filepath) = Ok content ->
  take n (file_lines content) = pre ++ line :: post ->
  Forall no_header pre ->
  startswith "@" line = true ->
  new_format line = Ok tok \/
    ((exists e, new_format line = Raise e) /\ old_format line = Ok tok) ->
  infer_direction w filepath n =
    Ok (if String.eqb tok "1" then Forward
        else if String.eqb tok "2" then Reverse
        else Unknown).
Proof.
  intros Ho Ht Hpre Hh Htok. unfold infer_direction.
  rewrite Ho. simpl. rewrite Ht, (scan_first_header _ _ _ _ Hpre Hh).
  assert (try_formats line = Ok (PyStr tok)) as ->.
  { unfold try_formats. destruct Htok as [-> | [[e He] Hold]]; [reflexivity |].
    rewrite He, (new_format_raises _ _ He), Hold. reflexivity. }
  simpl. repeat case_match; reflexivity.
Qed.

Lemma infer_direction_token_witness :
  infer_direction w_ex (PurePath "fwd.fastq") 100 = Ok Forward /\
  infer_direction w_ex (PurePath "rev.fastq") 100 = Ok Reverse /\
  infer_direction w_ex (PurePath "old.fastq") 100 = Ok Forward.
Proof.
  split; [| split].
  - apply (infer_direction_token w_ex (PurePath "fwd.fastq") 100 fwd_reads []
             ("@EAS139:136:FC706VJ:2:2104:15343:197393 1:Y:18:ATCACG" +:+ newline)
             (map (fun l => l +:+ newline) ["ACGT"; "+"; "IIII"]) "1");
      [reflexivity | reflexivity | constructor | reflexivity | left; reflexivity].
  - apply (infer_direction_token w_ex (PurePath "rev.fastq") 100 rev_reads []
             ("@EAS139:136:FC706VJ:2:2104:15343:197393 2:Y:18:ATCACG" +:+ newline)
             (map (fun l => l +:+ newline) ["ACGT"; "+"; "IIII"]) "2");
      [reflexivity | reflexivity | constructor | reflexivity | left; reflexivity].
  - apply (infer_direction_token w_ex (PurePath "old.fastq") 100 old_reads []
             old_reads [] "1");
      [reflexivity | reflexivity | constructor | reflexivity |].
    right. split; [exists IndexError |]; reflexivity.
Defined.

(** C6.  When none of the first [n] lines starts with [@], the loop ends
    with [member_number] still the integer 0 and the result is [Unknown];
    a file of at most [n] lines is scanned over all of its lines and no
    further. *)
Theorem infer_direction_no_header w filepath n content :
  open_r w (path_str filepath) = Ok content ->
  Forall no_header (take n (file_lines content)) ->
  scan (take n (file_lines content)) (PyInt 0) = Ok (PyInt 0) /\
  infer_direction w filepath n = Ok Unknown /\
  (length (file_lines content) <= n ->
   take n (file_lines content) = file_lines content).
Proof.
  intros Ho Hno. split; [| split].
  - exact (scan_no_header _ _ Hno).
  - unfold infer_direction. rewrite Ho. simpl.
    rewrite (scan_no_header _ _ Hno). reflexivity.
  - apply take_ge.
Qed.

Lemma infer_direction_no_header_witness :
  infer_direction w_ex (PurePath "plain.fastq") 100 = Ok Unknown /\
  infer_direction w_ex (PurePath "bad.fastq") 0 = Ok Unknown.
Proof.
  split.
  - apply (infer_direction_no_header w_ex (PurePath "plain.fastq") 100 plain_reads);
      [reflexivity | vm_compute; repeat constructor].
  - apply (infer_direction_no_header w_ex (PurePath "bad.fastq") 0 bad_reads);
      [reflexivity | constructor].
Defined.

(** ** The filesystem *)

Lemma str_app_cons c s t : String c s +:+ t = String c (s +:+ t).
Proof. reflexivity. Qed.

Lemma str_app_nil_r s : s +:+ EmptyString = s.
Proof.
  induction s as [|c s IH]; [reflexivity |].
  by rewrite str_app_cons, IH.
Qed.

Lemma str_app_assoc s t u : (s +:+ t) +:+ u = s +:+ (t +:+ u).
Proof.
  induction s as [|c s IH]; [reflexivity |].
  by rewrite !str_app_cons, IH.
Qed.

Lemma set_fs_id w : set_fs w (fs w) = w.
Proof. by destruct w. Qed.

Lemma set_fs_set_fs w m m' : set_fs (set_fs w m) m' = set_fs w m'.
Proof. reflexivity. Qed.

Lemma fold_fwrite fh ls : forall w c,
  fs w !! fh = Some (File c) ->
  fold_left (fwrite fh) ls w =
    set_fs w (<[fh := File (c +:+ written ls)]> (fs w)).
Proof.
  induction ls as [|l ls IH]; simpl; intros w c Hc.
  - rewrite str_app_nil_r, (insert_id _ _ _ Hc). symmetry. apply set_fs_id.
  - unfold fwrite at 2. rewrite Hc.
    rewrite (IH _ (c +:+ l)); [| apply lookup_insert_eq].
    simpl. rewrite insert_insert_eq, str_app_assoc. reflexivity.
Qed.

Lemma is_dir_root w : is_dir w [] = true.
Proof.
  unfold is_dir. rewrite bool_decide_eq_true_2; [reflexivity | apply prefix_nil].
Qed.

Lemma removelast_ne {A} (k : list A) : k <> [] -> removelast k <> k.
Proof.
  intros Hk Heq. destruct (exists_last Hk) as (k' & a & ->).
  rewrite removelast_last in Heq.
  apply (f_equal length) in Heq. rewrite length_app in Heq. simpl in Heq. lia.
Qed.

(** Writing a file at [k] changes what is a directory at most at [k]. *)
Lemma is_dir_insert_file w k c k' :
  k' <> k -> is_dir (set_fs w (<[k := File c]> (fs w))) k' = is_dir w k'.
Proof.
  intros Hne. unfold is_dir. simpl. by rewrite lookup_insert_ne.
Qed.

Lemma is_dir_insert_file_eq w k c :
  is_dir w k = false -> is_dir (set_fs w (<[k := File c]> (fs w))) k = false.
Proof.
  unfold is_dir. simpl. rewrite lookup_insert_eq.
  intros [H _]%orb_false_iff. by rewrite H.
Qed.

Lemma open_w_Ok w s k w1 :
  open_w w s = Ok (k, w1) -> opened w s k EmptyString w1.
Proof.
  unfold open_w, opened.
  destruct (String.eqb_spec s EmptyString) as [|Hs]; [discriminate |].
  destruct (is_dir w (resolve w s)) eqn:Hd; [discriminate |].
  destruct (is_dir w (removelast (resolve w s))) eqn:Hp; [| discriminate].
  intros [= <- <-]. auto.
Qed.

Lemma open_a_Ok w s k w1 :
  open_a w s = Ok (k, w1) ->
  exists c, opened w s k c w1 /\
    (fs w !! k = Some (File c) \/ (c = EmptyString /\ fs w !! k <> Some (File c))).
Proof.
  unfold open_a, opened.
  destruct (String.eqb_spec s EmptyString) as [|Hs]; [discriminate |].
  destruct (is_dir w (resolve w s)) eqn:Hd; [discriminate |].
  destruct (is_dir w (removelast (resolve w s))) eqn:Hp; [| discriminate].
  destruct (fs w !! resolve w s) as [[c|]|] eqn:Hl; intros [= <- <-].
  - exists c. rewrite (insert_id _ _ _ Hl), set_fs_id. auto 10.
  - exists EmptyString. repeat split; auto. right. split; [done | congruence].
  - exists EmptyString. repeat split; auto. right. split; [done | congruence].
Qed.

Lemma opened_open_w w s k c w1 :
  opened w s k c w1 ->
  open_w w1 s = Ok (k, set_fs w1 (<[k := File EmptyString]> (fs w1))).
Proof.
  intros (Hs & -> & Hd & Hp & ->). unfold open_w.
  destruct (String.eqb_spec s EmptyString) as [|_]; [done |].
  assert (resolve (set_fs w (<[resolve w s := File c]> (fs w))) s = resolve w s)
    as -> by reflexivity.
  rewrite (is_dir_insert_file_eq _ _ _ Hd).
  rewrite is_dir_insert_file, Hp; [reflexivity |].
  apply removelast_ne. intros Hk. rewrite Hk, is_dir_root in Hd. discriminate.
Qed.

Lemma opened_open_a w s k c w1 :
  opened w s k c w1 -> open_a w1 s = Ok (k, w1).
Proof.
  intros (Hs & -> & Hd & Hp & ->). unfold open_a.
  destruct (String.eqb_spec s EmptyString) as [|_]; [done |].
  assert (resolve (set_fs w (<[resolve w s := File c]> (fs w))) s = resolve w s)
    as -> by reflexivity.
  rewrite (is_dir_insert_file_eq _ _ _ Hd).
  rewrite is_dir_insert_file, Hp.
  - simpl. rewrite lookup_insert_eq. reflexivity.
  - apply removelast_ne. intros Hk. rewrite Hk, is_dir_root in Hd. discriminate.
Qed.


Lemma opened_write w s k c w1 ls :
  opened w s k c w1 ->
  opened w s k (c +:+ written ls) (fold_left (fwrite k) ls w1).
Proof.
  intros (Hs & -> & Hd & Hp & ->). repeat split; auto.
  rewrite (fold_fwrite _ _ _ c); [| apply lookup_insert_eq].
  simpl. by rewrite insert_insert_eq.
Qed.

(** ** Flushing *)

Lemma flushed_flushed self : flushed (flushed self) = flushed self.
Proof. unfold flushed. simpl. by rewrite app_nil_r. Qed.

(** [create] writes the unwritten lines, in their order, to the file named
    by the last component of the path, and moves them behind the written
    ones. *)
Lemma create_Ok self w self1 w1 :
  create self w = (Ok tt, self1, w1) ->
  self1 = flushed self /\
  opened w (name self) (resolve w (name self))
    (written (_unwritten_lines self)) w1.
Proof.
  unfold create. destruct (open_w w (name self)) as [[k w']|e] eqn:Ho;
    [| discriminate].
  intros [= <- <-]. split; [reflexivity |].
  apply open_w_Ok in Ho.
  pose proof (opened_write _ _ _ _ _ (_unwritten_lines self) Ho) as Hw.
  destruct Ho as (_ & -> & _). exact Hw.
Qed.

Lemma update_Ok self w self1 w1 :
  update self w = (Ok tt, self1, w1) ->
  self1 = flushed self /\
  exists c, opened w (name self) (resolve w (name self))
              (c +:+ written (_unwritten_lines self)) w1 /\
    (fs w !! resolve w (name self) = Some (File c) \/
     (c = EmptyString /\ fs w !! resolve w (name self) <> Some (File c))).
Proof.
  unfold update. destruct (open_a w (name self)) as [[k w']|e] eqn:Ho;
    [| discriminate].
  intros [= <- <-]. split; [reflexivity |].
  apply open_a_Ok in Ho as (c & Ho & Hc). exists c.
  pose proof (opened_write _ _ _ _ _ (_unwritten_lines self) Ho) as Hw.
  destruct Ho as (_ & -> & _). auto.
Qed.

(** ** Claims about flushing *)

(** C4.  A manifest constructed with [out/new.csv] is created as [new.csv]
    in the working directory: [create] opens [self.name], the last component
    of the path, and nothing appears at the path itself. *)
Theorem create_opens_last_component :
  let self := init w_ex (PurePath "out/new.csv") in
  path_str (_path self) = "out/new.csv" /\
  name self = "new.csv" /\
  (create self w_ex).1.1 = Ok tt /\
  fs (create self w_ex).2 !! ["home"; "u"; "new.csv"] = Some (File HEADER) /\
  fs (create self w_ex).2 !! ["home"; "u"; "out"; "new.csv"] = None /\
  resolve w_ex "out/new.csv" = ["home"; "u"; "out"; "new.csv"] /\
  path_exists (create self w_ex).2 (_path self) = false.
Proof. vm_compute. repeat split; reflexivity. Qed.

(** C2, the claim as stated fails: a second [create] truncates the file the
    first one wrote. *)
Lemma second_create_truncates :
  let self := init w_ex (PurePath "m.csv") in
  let first := create self w_ex in
  let second := create first.1.2 first.2 in
  first.1.1 = Ok tt /\
  _unwritten_lines first.1.2 = [] /\
  fs first.2 !! ["home"; "u"; "m.csv"] = Some (File HEADER) /\
  second.1.1 = Ok tt /\
  fs second.2 !! ["home"; "u"; "m.csv"] = Some (File EmptyString) /\
  second.2 <> first.2.
Proof.
  vm_compute. repeat split; try reflexivity.
  intros H. apply (f_equal (fun w => fs w !! ["home"; "u"; "m.csv"])) in H.
  vm_compute in H. discriminate.
Qed.

(** C2, amended.  After a successful flush the unwritten buffer is empty,
    and a second flush leaves both buffers as they are and writes nothing:
    a second [update] leaves the filesystem unchanged, and a second [create]
    reopens the file for overwriting and so leaves it empty. *)
Theorem second_flush self w self1 w1 :
  create self w = (Ok tt, self1, w1) \/ update self w = (Ok tt, self1, w1) ->
  _unwritten_lines self1 = [] /\
  String.length (written (_unwritten_lines self1)) = 0 /\
  update self1 w1 = (Ok tt, self1, w1) /\
  create self1 w1 =
    (Ok tt, self1,
     set_fs w1 (<[resolve w1 (name self1) := File EmptyString]> (fs w1))).
Proof.
  intros H.
  assert (self1 = flushed self /\
          exists c, opened w (name self) (resolve w (name self)) c w1)
    as [-> [c Ho]].
  { destruct H as [H | H].
    - apply create_Ok in H as [-> Ho]. eauto.
    - apply update_Ok in H as [-> (c & Ho & _)]. eauto. }
  assert (resolve w1 (name self) = resolve w (name self)) as Hr
    by (destruct Ho as (_ & _ & _ & _ & ->); reflexivity).
  split; [reflexivity | split; [reflexivity | split]].
  - unfold update. change (name (flushed self)) with (name self).
    rewrite (opened_open_a _ _ _ _ _ Ho). simpl. by rewrite flushed_flushed.
  - unfold create. change (name (flushed self)) with (name self).
    rewrite (opened_open_w _ _ _ _ _ Ho), Hr. simpl. by rewrite flushed_flushed.
Qed.

Lemma second_flush_witness :
  let self := init w_ex (PurePath "m.csv") in
  let first := create self w_ex in
  update first.1.2 first.2 = (Ok tt, first.1.2, first.2).
Proof.
  apply (second_flush (init w_ex (PurePath "m.csv")) w_ex).
  left. reflexivity.
Defined.




(** ** Claims about the buffers *)

(** What [extend_manifest] appends when it returns: for each file, in
    order, the stem, the absolute path and the direction, with commas
    between them and a newline behind. *)
Lemma extend_manifest_entries w files infer : forall self self',
  extend_manifest w self files infer = (Ok tt, self') ->
  exists rows,
    _unwritten_lines self' = _unwritten_lines self ++ rows /\
    Forall2 (fun file r => exists d,
               r = path_stem file +:+ "," +:+
                   path_str (path_absolute w file) +:+ "," +:+
                   value d +:+ newline /\
               if infer then infer_direction w file 100 = Ok d
               else d = Unknown) files rows /\
    _lines self' = _lines self.
Proof.
  induction files as [|file files' IH]; simpl; intros self self' H.
  - injection H as <-. exists []. rewrite app_nil_r. repeat split; constructor.
  - destruct infer.
    + destruct (infer_direction w file 100) as [d|e] eqn:Ed; [| discriminate].
      apply IH in H as (rows & Hu & Hf & Hw). simpl in Hu, Hw.
      exists (row (path_stem file) (path_str (path_absolute w file)) d :: rows).
      rewrite Hu, <- app_assoc. simpl. repeat split; auto.
      constructor; [exists d; split; [reflexivity | exact Ed] | exact Hf].
    + apply IH in H as (rows & Hu & Hf & Hw). simpl in Hu, Hw.
      exists (row (path_stem file) (path_str (path_absolute w file)) Unknown :: rows).
      rewrite Hu, <- app_assoc. simpl. repeat split; auto.
      constructor; [exists Unknown; split; reflexivity | exact Hf].
Qed.

(** A row is never the header line: it ends with a direction value. *)
Lemma list_ascii_app s t :
  list_ascii_of_string (s +:+ t) =
  list_ascii_of_string s ++ list_ascii_of_string t.
Proof.
  induction s as [|c s IH]; [reflexivity |].
  rewrite str_app_cons. simpl. by rewrite IH.
Qed.

Lemma row_ne_HEADER name' file_path d : row name' file_path d <> HEADER.
Proof.
  unfold row. intros H.
  assert (list_ascii_of_string (value d +:+ newline)
            `suffix_of` list_ascii_of_string HEADER) as Hs.
  { exists (list_ascii_of_string (name' +:+ "," +:+ file_path +:+ ",")).
    rewrite <- H, <- list_ascii_app, !str_app_assoc. reflexivity. }
  revert Hs.
  refine (bool_decide_eq_false_1
            (list_ascii_of_string (value d +:+ newline)
               `suffix_of` list_ascii_of_string HEADER) _).
  by destruct d; vm_compute.
Qed.

Lemma header_count_app ls ls' :
  header_count (ls ++ ls') = header_count ls + header_count ls'.
Proof. unfold header_count. by rewrite filter_app, length_app. Qed.

Lemma header_count_add_file self name' file_path d :
  header_count (buffers (add_file self name' file_path d)) =
  header_count (buffers self).
Proof.
  unfold buffers. simpl. rewrite app_assoc, header_count_app.
  unfold header_count at 2.
  rewrite filter_cons_False by apply row_ne_HEADER. simpl. lia.
Qed.

Lemma header_count_extend w files infer : forall self,
  header_count (buffers (extend_manifest w self files infer).2) =
  header_count (buffers self).
Proof.
  induction files as [|file files' IH]; simpl; intros self; [reflexivity |].
  destruct infer; [destruct (infer_direction w file 100) |]; simpl;
    rewrite ?IH, ?header_count_add_file; reflexivity.
Qed.

Lemma header_count_flushed self :
  header_count (buffers (flushed self)) = header_count (buffers self).
Proof. unfold buffers. simpl. by rewrite app_nil_r. Qed.

(** A new manifest has the header once, as its first unwritten line, and it
    keeps exactly one header through the additions and the flush. *)
Lemma header_once_new w filepath files infer :
  let self := init w filepath in
  _unwritten_lines self = [HEADER] /\
  header_count (buffers self) = 1 /\
  header_count (buffers (extend_manifest w self files infer).2) = 1 /\
  header_count (buffers (flushed (extend_manifest w self files infer).2)) = 1.
Proof.
  simpl. rewrite header_count_flushed, header_count_extend.
  repeat split; reflexivity.
Qed.

(** A loaded manifest has one header more than the file it was read from. *)
Lemma header_count_from_file w filepath self :
  from_file w filepath = Ok self ->
  exists content,
    open_r w (path_str filepath) = Ok content /\
    _lines self = HEADER :: file_lines content /\
    _unwritten_lines self = [] /\
    header_count (buffers self) = S (header_count (file_lines content)).
Proof.
  unfold from_file.
  destruct (open_r w (path_str filepath)) as [content|e]; simpl; [| discriminate].
  intros [= <-]. exists content. unfold buffers. simpl. rewrite app_nil_r.
  repeat split.
Qed.

(** C3.  Loading a manifest that was written by [create], and so begins
    with the header line, gives written lines that hold the header twice;
    the additions and the flush keep it twice. *)
Theorem from_file_duplicates_header :
  let r := from_file w_ex (PurePath "out/old.csv") in
  file_lines old_manifest = [HEADER; row "s1" "/home/u/s1.fastq" Forward] /\
  (self ← r; Ok (_lines self)) =
    Ok [HEADER; HEADER; row "s1" "/home/u/s1.fastq" Forward] /\
  (self ← r; Ok (_unwritten_lines self)) = Ok [] /\
  (self ← r; Ok (header_count (buffers self))) = Ok 2 /\
  (self ← r;
   Ok (header_count (buffers (flushed
         (extend_manifest w_ex self [PurePath "rev.fastq"] true).2)))) = Ok 2.
Proof. vm_compute. repeat split; reflexivity. Qed.

(** ** Claims about [main] *)

Lemma extend_manifest_raises w files : forall self file e,
  file ∈ files -> infer_direction w file 100 = Raise e ->
  exists e' file' self',
    extend_manifest w self files true = (Raise e', self') /\
    file' ∈ files /\ infer_direction w file' 100 = Raise e'.
Proof.
  induction files as [|f files' IH]; intros self file e Hin He.
  - by apply elem_of_nil in Hin.
  - simpl. destruct (infer_direction w f 100) as [d|e1] eqn:E1.
    + apply elem_of_cons in Hin as [-> | Hin]; [congruence |].
      destruct (IH (add_file self (path_stem f)
                      (path_str (path_absolute w f)) d) file e Hin He)
        as (e' & file' & self' & Hx & Hin' & He').
      exists e', file', self'. repeat split; auto. by apply list_elem_of_further.
    + exists e1, f, self. repeat split; auto. apply list_elem_of_here.
Qed.

(** C8.  When [main] has built its manifest and inference is on, a file on
    which [infer_direction] raises makes [extend_manifest] raise; [main]
    lets that exception through, so the run ends with status 1, and the
    filesystem and standard output are as they were before the run, whatever
    the output mode. *)
Theorem main_inference_failure script_basename args w manifest file e :
  setup script_basename args w = inr manifest ->
  args_infer args = true ->
  file ∈ args_files args ->
  infer_direction w (PurePath file) 100 = Raise e ->
  exists e' file',
    file' ∈ args_files args /\
    infer_direction w (PurePath file') 100 = Raise e' /\
    (extend_manifest w manifest (map PurePath (args_files args)) true).1
      = Raise e' /\
    main script_basename args w = (Raise e', w) /\
    exit_status (main script_basename args w).1 = 1%Z.
Proof.
  intros Hs Hi Hin He.
  destruct (extend_manifest_raises w (map PurePath (args_files args)) manifest
              (PurePath file) e) as (e' & p' & self' & Hx & Hin' & He');
    [by apply list_elem_of_fmap_2 | exact He |].
  apply list_elem_of_fmap in Hin' as (file' & -> & Hin').
  assert (main script_basename args w = (Raise e', w)) as Hm.
  { unfold main. rewrite Hs. unfold finish. by rewrite Hi, Hx. }
  exists e', file'. rewrite Hx, Hm. repeat split; auto.
Qed.

Lemma main_inference_failure_witness :
  let args := {| args_files := ["fwd.fastq"; "bad.fastq"];
                 args_output := Some "m.csv";
                 args_append := None;
                 args_infer := true;
                 args_no_overwrite := false |} in
  exists e, main "generate_qiime_manifest.py" args w_ex = (Raise e, w_ex).
Proof.
  destruct (main_inference_failure "generate_qiime_manifest.py"
              {| args_files := ["fwd.fastq"; "bad.fastq"];
                 args_output := Some "m.csv";
                 args_append := None;
                 args_infer := true;
                 args_no_overwrite := false |}
              w_ex (init w_ex (PurePath "m.csv")) "bad.fastq" IndexError
              eq_refl eq_refl
              (list_elem_of_further _ _ _ (list_elem_of_here _ _))
              eq_refl)
    as (e' & _ & _ & _ & _ & Hm & _).
  exists e'. exact Hm.
Defined.

(** The empty path is the working directory, which exists. *)
Lemma path_exists_empty w : path_exists w (PurePath EmptyString) = true.
Proof.
  unfold path_exists.
  change (path_str (PurePath EmptyString)) with ".".
  unfold os_exists. change (resolve w ".") with (cwd w).
  unfold is_dir. by rewrite bool_decide_eq_true_2.
Qed.

(** C9, the claim as stated fails: with [-o] given the empty string and
    [-n], the target is the working directory, which exists, and yet [main]
    prints the manifest and returns 0. *)
Lemma main_empty_output_not_refused :
  let args := {| args_files := ["fwd.fastq"];
                 args_output := Some EmptyString;
                 args_append := None;
                 args_infer := false;
                 args_no_overwrite := true |} in
  path_exists w_ex (PurePath EmptyString) = true /\
  (main "generate_qiime_manifest.py" args w_ex).1 = Ok 0%Z /\
  stdout (main "generate_qiime_manifest.py" args w_ex).2 =
    [HEADER; row "fwd" "/home/u/fwd.fastq" Unknown].
Proof. vm_compute. repeat split; reflexivity. Qed.

(** C9, amended.  [main] checks in this order, and at the first check that
    fails it prints one message and returns without touching the filesystem:
    a file whose suffix is not [.fastq] gives 1; otherwise a file that does
    not exist gives 2; otherwise, with [-a], a target that does not exist
    gives 1; otherwise, with [-o] given a non-empty string and [-n], a
    target that exists gives 1. *)
Theorem main_validation script_basename args w :
  let files := map PurePath (args_files args) in
  (forallb suffix_ok files = false ->
   main script_basename args w =
     (Ok 1%Z,
      print w (script_basename +:+
        ": error: All files must be valid fastq files and their names must end with '.fastq'"))) /\
  (forallb suffix_ok files = true ->
   forallb (path_exists w) files = false ->
   exists x, x ∈ files /\ path_exists w x = false /\
     main script_basename args w =
       (Ok 2%Z,
        print w (script_basename +:+
          ": error: [Errrno 2] No such file or directory '" +:+
          path_str x +:+ "'"))) /\
  (forallb suffix_ok files = true ->
   forallb (path_exists w) files = true ->
   forall s, args_append args = Some s ->
   path_exists w (PurePath s) = false ->
   main script_basename args w =
     (Ok 1%Z,
      print w (script_basename +:+ ": error: File " +:+
               path_str (PurePath s) +:+ " not found!"))) /\
  (forallb suffix_ok files = true ->
   forallb (path_exists w) files = true ->
   forall s, args_append args = None -> args_output args = Some s ->
   s <> EmptyString ->
   args_no_overwrite args = true ->
   path_exists w (PurePath s) = true ->
   main script_basename args w =
     (Ok 1%Z,
      print w (script_basename +:+ ": error: File " +:+
               path_str (PurePath s) +:+ " exists!"))).
Proof.
  intros files. unfold main, setup. fold files. repeat split.
  - intros ->. reflexivity.
  - intros -> He. rewrite He. simpl.
    destruct (List.find (fun x => negb (path_exists w x)) files) as [x|] eqn:Hf.
    + apply find_some in Hf as [Hin Hx]. exists x.
      apply list_elem_of_In in Hin. apply negb_true_iff in Hx. auto.
    + exfalso. apply not_true_iff_false in He. apply He.
      apply forallb_forall. intros x Hin.
      apply (find_none _ _ Hf) in Hin. by apply negb_false_iff in Hin.
  - intros -> -> s Ha Hx. simpl. rewrite Ha. simpl.
    destruct (String.eqb_spec s EmptyString) as [-> | _]; simpl.
    + rewrite path_exists_empty in Hx. discriminate.
    + by rewrite Hx.
  - intros -> -> s Ha Ho Hs Hn Hx. simpl. rewrite Ha, Ho. simpl.
    destruct (String.eqb_spec s EmptyString) as [| _]; [done |]. simpl.
    by rewrite Hn, Hx.
Qed.

Lemma main_validation_witness :
  (main "generate_qiime_manifest.py"
     {| args_files := ["fwd.fastq"; "notes.txt"]; args_output := None;
        args_append := None; args_infer := false;
        args_no_overwrite := false |} w_ex).1 = Ok 1%Z /\
  (main "generate_qiime_manifest.py"
     {| args_files := ["fwd.fastq"; "gone.fastq"]; args_output := None;
        args_append := None; args_infer := false;
        args_no_overwrite := false |} w_ex).1 = Ok 2%Z /\
  (main "generate_qiime_manifest.py"
     {| args_files := ["fwd.fastq"]; args_output := None;
        args_append := Some "gone.csv"; args_infer := false;
        args_no_overwrite := false |} w_ex).1 = Ok 1%Z /\
  (main "generate_qiime_manifest.py"
     {| args_files := ["fwd.fastq"]; args_output := Some "out/old.csv";
        args_append := None; args_infer := false;
        args_no_overwrite := true |} w_ex).1 = Ok 1%Z.
Proof.
  split; [| split; [| split]].
  - rewrite (proj1 (main_validation "generate_qiime_manifest.py"
       {| args_files := ["fwd.fastq"; "notes.txt"]; args_output := None;
          args_append := None; args_infer := false;
          args_no_overwrite := false |} w_ex) eq_refl).
    reflexivity.
  - destruct (proj1 (proj2 (main_validation "generate_qiime_manifest.py"
       {| args_files := ["fwd.fastq"; "gone.fastq"]; args_output := None;
          args_append := None; args_infer := false;
          args_no_overwrite := false |} w_ex)) eq_refl eq_refl)
      as (x & _ & _ & ->).
    reflexivity.
  - rewrite (proj1 (proj2 (proj2 (main_validation "generate_qiime_manifest.py"
       {| args_files := ["fwd.fastq"]; args_output := None;
          args_append := Some "gone.csv"; args_infer := false;
          args_no_overwrite := false |} w_ex))) eq_refl eq_refl
       "gone.csv" eq_refl eq_refl).
    reflexivity.
  - rewrite (proj2 (proj2 (proj2 (main_validation "generate_qiime_manifest.py"
       {| args_files := ["fwd.fastq"]; args_output := Some "out/old.csv";
          args_append := None; args_infer := false;
          args_no_overwrite := true |} w_ex))) eq_refl eq_refl
       "out/old.csv" eq_refl eq_refl ltac:(discriminate) eq_refl eq_refl).
    reflexivity.
Defined.

(** * Further properties *)

(** ** Fields of a split string *)

Lemma split_length sep s : length (split sep s) = S (count_char sep s).
Proof.
  induction s as [|c s IH]; [reflexivity |]. simpl.
  destruct (Ascii.eqb c sep); simpl; [by rewrite IH |].
  destruct (split_nonempty sep s) as (f & fs' & E). rewrite E in *. exact IH.
Qed.

Lemma count_char_cons_0 sep c s :
  count_char sep (String c s) = 0%nat ->
  Ascii.eqb c sep = false /\ count_char sep s = 0%nat.
Proof. simpl. destruct (Ascii.eqb c sep); [discriminate | auto]. Qed.

(** A prefix without separator stays in the first field. *)
Lemma split_app sep a b f0 fs' :
  count_char sep a = 0%nat -> split sep b = f0 :: fs' ->
  split sep (a +:+ b) = (a +:+ f0) :: fs'.
Proof.
  intros Ha Hb. induction a as [|c a IH]; [exact Hb |].
  apply count_char_cons_0 in Ha as [Hc Ha].
  rewrite !str_app_cons. simpl. rewrite Hc, (IH Ha). reflexivity.
Qed.

Lemma split_app_sep sep a b :
  count_char sep a = 0%nat ->
  split sep (a +:+ String sep b) = a :: split sep b.
Proof.
  intros Ha. rewrite (split_app sep a (String sep b) EmptyString (split sep b) Ha).
  - by rewrite str_app_nil_r.
  - simpl. by rewrite Ascii.eqb_refl.
Qed.

Lemma str_last_Ok_nonempty s t : str_last s = Ok t -> s <> EmptyString.
Proof. by destruct s. Qed.

Lemma str_last_cons c s :
  s <> EmptyString -> str_last (String c s) = str_last s.
Proof. by destruct s. Qed.

Lemma str_last_app s c :
  str_last (s +:+ String c EmptyString) = Ok (String c EmptyString).
Proof.
  induction s as [|a s IH]; [reflexivity |].
  rewrite str_app_cons, str_last_cons; [exact IH |]. by destruct s.
Qed.

Lemma str_last_empty_iff s e : str_last s = Raise e <-> s = EmptyString /\ e = IndexError.
Proof.
  split.
  - induction s as [|c s IH]; simpl; [intros [= <-]; auto |].
    destruct s; [discriminate |]. intros H. by destruct (IH H).
  - intros [-> ->]. reflexivity.
Qed.

(** The last field ends as the string does, unless the string ends with
    the separator. *)
Lemma split_last_field sep s c :
  str_last s = Ok (String c EmptyString) -> Ascii.eqb c sep = false ->
  exists f, last (split sep s) = Some f /\ str_last f = Ok (String c EmptyString).
Proof.
  intros Hs Hc. induction s as [|a s IH]; [discriminate |].
  destruct s as [|b s'].
  - injection Hs as ->. simpl. rewrite Hc. eauto.
  - rewrite str_last_cons in Hs by done.
    destruct (IH Hs) as (f & Hl & Hf).
    change (split sep (String a (String b s'))) with
      (if Ascii.eqb a sep then EmptyString :: split sep (String b s')
       else match split sep (String b s') with
            | [] => [String a EmptyString]
            | f0 :: fs' => String a f0 :: fs'
            end).
    destruct (split sep (String b s')) as [|f0 [|f1 fs']] eqn:E;
      [discriminate | |].
    + injection Hl as ->. destruct (Ascii.eqb a sep); simpl.
      * eauto.
      * exists (String a f). split; [reflexivity |].
        rewrite str_last_cons; [exact Hf | exact (str_last_Ok_nonempty _ _ Hf)].
    + exists f. split; [| exact Hf].
      destruct (Ascii.eqb a sep); by rewrite !last_cons_cons in *.
Qed.

(** ** When the formats succeed *)

Lemma new_format_space line :
  (count_char " " line = 0%nat -> new_format line = Raise IndexError) /\
  (count_char " " line <> 0%nat -> exists tok, new_format line = Ok tok).
Proof.
  unfold new_format, getitem. split; intros H.
  - rewrite lookup_ge_None_2; [reflexivity |]. rewrite split_length. lia.
  - destruct (lookup_lt_is_Some_2 (split " " line) 1) as [f ->];
      [rewrite split_length; lia |].
    simpl. destruct (split_nonempty ":" f) as (f0 & fs' & ->). simpl. eauto.
Qed.

Lemma old_format_fields line :
  old_format line = Raise IndexError <->
  (count_char ":" line < 4)%nat \/ split ":" line !! 4%nat = Some EmptyString.
Proof.
  unfold old_format, getitem.
  destruct (split ":" line !! 4%nat) as [f|] eqn:E; simpl.
  - rewrite str_last_empty_iff. split.
    + intros [-> _]. auto.
    + intros [H | [= ->]]; [| done].
      apply lookup_lt_Some in E. rewrite split_length in E. lia.
  - split; [| done]. intros _. left.
    apply lookup_ge_None_1 in E. rewrite split_length in E. lia.
Qed.

(** X1.  The [try] statement fails exactly on a header without a space
    that has fewer than four colons or nothing between the fourth colon and
    the fifth; it then leaves with [IndexError], and in every other case it
    gives a string. *)
Theorem try_formats_IndexError_iff line :
  (try_formats line = Raise IndexError <->
   count_char " " line = 0%nat /\
   ((count_char ":" line < 4)%nat \/
    split ":" line !! 4%nat = Some EmptyString)) /\
  (try_formats line = Raise IndexError \/
   exists tok, try_formats line = Ok (PyStr tok)).
Proof.
  destruct (new_format_space line) as [H0 H1].
  split.
  - rewrite <- old_format_fields. unfold try_formats.
    destruct (decide (count_char " " line = 0%nat)) as [Hz | Hnz].
    + rewrite (H0 Hz).
      destruct (old_format line) as [tok|e] eqn:Eo; simpl.
      * split; [discriminate | intros [_ [=]]].
      * rewrite (old_format_raises _ _ Eo). tauto.
    + destruct (H1 Hnz) as [tok ->]. split; [discriminate | tauto].
  - destruct (try_formats_cases line)
      as [(tok & _ & ->) | [(_ & tok & _ & ->) | (_ & _ & ->)]]; eauto.
Qed.

Lemma try_formats_IndexError_iff_witness :
  try_formats ("@HWUSI-EAS100R:6:73:941::1973#0/1" +:+ newline)
    = Raise IndexError /\
  try_formats ("@SEQ_ID" +:+ newline) = Raise IndexError.
Proof.
  split.
  - apply (proj1 (try_formats_IndexError_iff _)).
    split; [reflexivity | right; reflexivity].
  - apply (proj1 (try_formats_IndexError_iff _)).
    split; [reflexivity | left; vm_compute; lia].
Defined.

Lemma new_format_token ident m rest :
  count_char " " ident = 0%nat -> count_char " " m = 0%nat ->
  count_char ":" m = 0%nat ->
  new_format (ident +:+ " " +:+ m +:+ ":" +:+ rest) = Ok m.
Proof.
  intros Hi Hm Hc. unfold new_format.
  change (" " +:+ m +:+ ":" +:+ rest) with (String " " (m +:+ String ":" rest)).
  rewrite (split_app_sep _ _ _ Hi).
  destruct (split_nonempty " " rest) as (h0 & hs & Hr).
  rewrite (split_app " " m (String ":" rest) (String ":" h0) hs Hm)
    by (simpl; by rewrite Hr).
  simpl. unfold getitem.
  rewrite (split_app_sep _ _ _ Hc). reflexivity.
Qed.

Lemma direction_of_str tok :
  (if eq_str (PyStr tok) "1" then Ok Forward
   else if eq_str (PyStr tok) "2" then Ok Reverse
   else Ok Unknown) = Ok (direction_of tok).
Proof. unfold direction_of. simpl. by repeat case_match. Qed.

Lemma startswith_cons c s :
  startswith (String c EmptyString) (String c s) = true.
Proof.
  unfold startswith. simpl. destruct (ascii_dec c c); [| done]. by destruct s.
Qed.

(** X2.  A header of the post-Casava form, an identifier without space,
    a space, a member number without space or colon, a colon and anything
    after it, gives the direction of that member number. *)
Theorem infer_direction_post_casava w filepath n content pre ident m rest post :
  open_r w (path_str filepath) = Ok content ->
  take n (file_lines content) =
    pre ++ (String "@" ident +:+ " " +:+ m +:+ ":" +:+ rest) :: post ->
  Forall no_header pre ->
  count_char " " ident = 0%nat ->
  count_char " " m = 0%nat -> count_char ":" m = 0%nat ->
  infer_direction w filepath n = Ok (direction_of m).
Proof.
  intros Ho Ht Hpre Hi Hm Hc. unfold infer_direction.
  rewrite Ho. simpl. rewrite Ht, (scan_first_header _ _ _ _ Hpre)
    by (rewrite str_app_cons; apply startswith_cons).
  unfold try_formats.
  rewrite (new_format_token (String "@" ident) m rest Hi Hm Hc).
  apply direction_of_str.
Qed.

Lemma infer_direction_post_casava_witness :
  infer_direction w_ex (PurePath "rev.fastq") 100 = Ok Reverse.
Proof.
  apply (infer_direction_post_casava w_ex (PurePath "rev.fastq") 100 rev_reads
           [] "EAS139:136:FC706VJ:2:2104:15343:197393" "2"
           ("Y:18:ATCACG" +:+ newline)
           (map (fun l => l +:+ newline) ["ACGT"; "+"; "IIII"]));
    [reflexivity | reflexivity | constructor | reflexivity | reflexivity
    | reflexivity].
Defined.

Lemma count_char_app c s t :
  count_char c (s +:+ t) = (count_char c s + count_char c t)%nat.
Proof.
  induction s as [|a s IH]; [reflexivity |].
  rewrite str_app_cons. simpl. rewrite IH. lia.
Qed.

Lemma startswith_app c s t :
  startswith (String c EmptyString) s = true ->
  startswith (String c EmptyString) (s +:+ t) = true.
Proof.
  intros H. destruct s as [|a s']; [discriminate |].
  unfold startswith in *. rewrite str_app_cons. simpl in *.
  destruct (ascii_dec c a); [| discriminate]. by destruct (s' +:+ t).
Qed.

(** X3.  A header of the pre-Casava form, no space and exactly four colons,
    that ends with its newline gives [Unknown]: the last character of the
    fifth field is the newline, not the member number. *)
Theorem infer_direction_pre_casava_newline w filepath n content pre body post :
  open_r w (path_str filepath) = Ok content ->
  take n (file_lines content) = pre ++ (body +:+ newline) :: post ->
  Forall no_header pre ->
  startswith "@" body = true ->
  count_char " " body = 0%nat ->
  count_char ":" body = 4%nat ->
  old_format (body +:+ newline) = Ok newline /\
  infer_direction w filepath n = Ok Unknown.
Proof.
  intros Ho Ht Hpre Hh Hs Hc.
  assert (old_format (body +:+ newline) = Ok newline) as Hold.
  { unfold old_format, getitem.
    destruct (split_last_field ":" (body +:+ newline) nl) as (f & Hl & Hf);
      [apply str_last_app | reflexivity |].
    rewrite last_lookup, split_length, count_char_app, Hc in Hl.
    simpl in Hl. rewrite Hl. simpl. exact Hf. }
  split; [exact Hold |].
  unfold infer_direction. rewrite Ho. simpl.
  rewrite Ht, (scan_first_header _ _ _ _ Hpre) by (by apply startswith_app).
  unfold try_formats.
  rewrite (proj1 (new_format_space _))
    by (rewrite count_char_app, Hs; reflexivity).
  rewrite Hold. reflexivity.
Qed.

Lemma infer_direction_pre_casava_newline_witness :
  old_format (old_reads +:+ newline) = Ok newline /\
  infer_direction
    (set_fs w_ex (<[ ["home"; "u"; "old.fastq"] :=
                       File (old_reads +:+ newline) ]> (fs w_ex)))
    (PurePath "old.fastq") 100 = Ok Unknown.
Proof.
  apply (infer_direction_pre_casava_newline _ (PurePath "old.fastq") 100
           (old_reads +:+ newline) [] old_reads []);
    [reflexivity | reflexivity | constructor | reflexivity | reflexivity
    | reflexivity].
Defined.

(** ** Every way [infer_direction] can fail *)

Lemma scan_Raise lines m e :
  scan lines m = Raise e ->
  exists pre line post,
    lines = pre ++ line :: post /\ Forall no_header pre /\
    startswith "@" line = true /\ try_formats line = Raise e.
Proof.
  induction lines as [|l lines' IH]; simpl; [discriminate |].
  destruct (startswith "@" l) eqn:Hl; intros H.
  - exists [], l, lines'. repeat split; auto.
  - destruct (IH H) as (pre & line & post & -> & Hpre & Hh & Ht).
    exists (l :: pre), line, post. repeat split; auto.
Qed.

(** X4.  [infer_direction] raises [IndexError] exactly when the file is
    read and the first header among its first [n] lines defeats both
    formats. *)
Theorem infer_direction_IndexError_iff w filepath n :
  infer_direction w filepath n = Raise IndexError <->
  exists content pre line post,
    open_r w (path_str filepath) = Ok content /\
    take n (file_lines content) = pre ++ line :: post /\
    Forall no_header pre /\ startswith "@" line = true /\
    try_formats line = Raise IndexError.
Proof.
  unfold infer_direction. split.
  - destruct (open_r w (path_str filepath)) as [content|e'] eqn:Ho; simpl.
    + destruct (scan (take n (file_lines content)) (PyInt 0)) as [m|e'] eqn:Es;
        simpl; [repeat case_match; discriminate |].
      intros [= ->].
      destruct (scan_Raise _ _ _ Es) as (pre & line & post & H1 & H2 & H3 & H4).
      exists content, pre, line, post. auto.
    + intros [= ->]. unfold open_r in Ho. repeat case_match; discriminate.
  - intros (content & pre & line & post & Ho & Ht & Hpre & Hh & Hl).
    rewrite Ho. simpl. rewrite Ht, (scan_first_header _ _ _ _ Hpre Hh), Hl.
    reflexivity.
Qed.

Lemma infer_direction_IndexError_iff_witness :
  infer_direction w_ex (PurePath "bad.fastq") 100 = Raise IndexError.
Proof.
  apply (proj2 (infer_direction_IndexError_iff w_ex (PurePath "bad.fastq") 100)).
  exists bad_reads, [], ("@SEQ_ID" +:+ newline),
    (map (fun l => l +:+ newline) ["ACGT"; "+"; "IIII"]).
  repeat split; constructor.
Defined.

(** ** Writing and reading back *)

Lemma opened_open_r w s k c w1 : opened w s k c w1 -> open_r w1 s = Ok c.
Proof.
  intros (Hs & -> & Hd & Hp & ->). unfold open_r.
  destruct (String.eqb_spec s EmptyString) as [|_]; [done |].
  assert (resolve (set_fs w (<[resolve w s := File c]> (fs w))) s = resolve w s)
    as -> by reflexivity.
  rewrite (is_dir_insert_file_eq _ _ _ Hd). simpl.
  by rewrite lookup_insert_eq.
Qed.

(** What [open(s, "a")] finds in the file: its content, or nothing when it
    creates the file. *)
Lemma open_a_Ok_old w s k w1 :
  open_a w s = Ok (k, w1) ->
  opened w s k (match open_r w s with Ok c => c | Raise _ => EmptyString end) w1.
Proof.
  unfold open_a, open_r, opened.
  destruct (String.eqb_spec s EmptyString) as [|Hs]; [discriminate |].
  destruct (is_dir w (resolve w s)) eqn:Hd; [discriminate |].
  destruct (is_dir w (removelast (resolve w s))) eqn:Hp; [| discriminate].
  destruct (fs w !! resolve w s) as [[c|]|] eqn:Hl; intros [= <- <-];
    repeat split; auto.
  by rewrite (insert_id _ _ _ Hl), set_fs_id.
Qed.

(** X5.  After a successful [create] the file named by [self.name] holds
    exactly the unwritten lines, in their order, whatever it held before;
    those lines now follow the written ones and no line is left unwritten. *)
Theorem create_content self w self1 w1 :
  create self w = (Ok tt, self1, w1) ->
  open_r w1 (name self) = Ok (written (_unwritten_lines self)) /\
  _lines self1 = _lines self ++ _unwritten_lines self /\
  _unwritten_lines self1 = [].
Proof.
  intros H. apply create_Ok in H as [-> Ho].
  split; [exact (opened_open_r _ _ _ _ _ Ho) | split; reflexivity].
Qed.

Lemma create_content_witness :
  open_r (create (init w_ex (PurePath "bad.fastq")) w_ex).2 "bad.fastq"
    = Ok HEADER.
Proof.
  apply (create_content (init w_ex (PurePath "bad.fastq")) w_ex
           (create (init w_ex (PurePath "bad.fastq")) w_ex).1.2
           (create (init w_ex (PurePath "bad.fastq")) w_ex).2 eq_refl).
Defined.

(** X6.  After a successful [update] the file named by [self.name] holds
    what it held before, or nothing if it was not there, followed by the
    unwritten lines in their order. *)
Theorem update_content self w self1 w1 :
  update self w = (Ok tt, self1, w1) ->
  open_r w1 (name self) =
    Ok ((match open_r w (name self) with
         | Ok c => c
         | Raise _ => EmptyString
         end) +:+ written (_unwritten_lines self)) /\
  _lines self1 = _lines self ++ _unwritten_lines self /\
  _unwritten_lines self1 = [].
Proof.
  unfold update.
  destruct (open_a w (name self)) as [[k w']|e] eqn:Ho; [| discriminate].
  intros [= <- <-]. split; [| split; reflexivity].
  apply open_a_Ok_old in Ho.
  exact (opened_open_r _ _ _ _ _
           (opened_write _ _ _ _ _ (_unwritten_lines self) Ho)).
Qed.

Lemma update_content_witness :
  open_r (update (add_file (init w_ex (PurePath "plain.fastq")) "s" "/p" Forward)
            w_ex).2 "plain.fastq"
    = Ok (plain_reads +:+ HEADER +:+ row "s" "/p" Forward).
Proof.
  apply (update_content
           (add_file (init w_ex (PurePath "plain.fastq")) "s" "/p" Forward) w_ex
           (update (add_file (init w_ex (PurePath "plain.fastq")) "s" "/p" Forward)
              w_ex).1.2
           (update (add_file (init w_ex (PurePath "plain.fastq")) "s" "/p" Forward)
              w_ex).2 eq_refl).
Defined.

(** X7.  A flush touches one file only: every other entry of the
    filesystem, the working directory and standard output are as before. *)
Theorem flush_frame self w k' :
  k' <> resolve w (name self) ->
  fs (create self w).2 !! k' = fs w !! k' /\
  fs (update self w).2 !! k' = fs w !! k' /\
  cwd (create self w).2 = cwd w /\ stdout (create self w).2 = stdout w /\
  cwd (update self w).2 = cwd w /\ stdout (update self w).2 = stdout w.
Proof.
  intros Hk. unfold create, update.
  destruct (open_w w (name self)) as [[k w1]|e1] eqn:Hw;
    destruct (open_a w (name self)) as [[k2 w2]|e2] eqn:Ha; simpl.
  all: try (apply open_w_Ok in Hw;
            pose proof (opened_write _ _ _ _ _ (_unwritten_lines self) Hw)
              as (_ & -> & _ & _ & ->)).
  all: try (apply open_a_Ok_old in Ha;
            pose proof (opened_write _ _ _ _ _ (_unwritten_lines self) Ha)
              as (_ & -> & _ & _ & ->)).
  all: simpl; rewrite ?lookup_insert_ne by done; repeat split; done.
Qed.

Lemma flush_frame_witness :
  fs (create (init w_ex (PurePath "out/new.csv")) w_ex).2
    !! ["home"; "u"; "out"; "old.csv"] = Some (File old_manifest).
Proof.
  rewrite (proj1 (flush_frame (init w_ex (PurePath "out/new.csv")) w_ex
                    ["home"; "u"; "out"; "old.csv"] ltac:(discriminate))).
  reflexivity.
Defined.

(** ** Lines written and read back *)

Lemma str_app_nil_l s : EmptyString +:+ s = s.
Proof. reflexivity. Qed.

Lemma written_cons l ls : written (l :: ls) = l +:+ written ls.
Proof. reflexivity. Qed.

(** Reading splits nothing off: the lines of a file, put together again,
    are its content. *)
Lemma written_file_lines s : written (file_lines s) = s.
Proof.
  induction s as [|c s IH]; [reflexivity |]. simpl.
  destruct (Ascii.eqb_spec c nl) as [-> | _].
  - by rewrite written_cons, str_app_cons, str_app_nil_l, IH.
  - destruct (file_lines s) as [|l ls].
    + by rewrite <- IH.
    + by rewrite written_cons, str_app_cons, <- written_cons, IH.
Qed.

Lemma file_lines_line body rest :
  count_char nl body = 0%nat ->
  file_lines ((body +:+ newline) +:+ rest) = (body +:+ newline) :: file_lines rest.
Proof.
  intros Hb. induction body as [|c body IH].
  - rewrite str_app_nil_l. unfold newline. rewrite str_app_cons, str_app_nil_l.
    reflexivity.
  - apply count_char_cons_0 in Hb as [Hc Hb].
    rewrite !str_app_cons. simpl. rewrite Hc, (IH Hb). reflexivity.
Qed.

Lemma file_lines_written ls : Forall is_line ls -> file_lines (written ls) = ls.
Proof.
  induction 1 as [|l ls (body & -> & Hb & _) _ IH]; [reflexivity |].
  by rewrite written_cons, (file_lines_line _ _ Hb), IH.
Qed.

Lemma no_break_app s t : no_break s -> no_break t -> no_break (s +:+ t).
Proof.
  intros [Hs1 Hs2] [Ht1 Ht2]. split; rewrite count_char_app; lia.
Qed.

(** An entry is a line when neither the sample name nor the path holds a
    line break; the header is a line. *)
Lemma entry_is_line name' file_path d :
  no_break name' -> no_break file_path ->
  is_line (name' +:+ "," +:+ file_path +:+ "," +:+ value d +:+ newline).
Proof.
  intros Hn Hp. exists (name' +:+ "," +:+ file_path +:+ "," +:+ value d). split.
  - by rewrite !str_app_assoc.
  - repeat apply no_break_app; try done; by destruct d.
Qed.

Lemma HEADER_is_line : is_line HEADER.
Proof. exists "sample-id,absolute-filepath,direction". by repeat split. Qed.

(** ** The rows of a manifest *)

(** C7, the claim as stated fails: a file whose name holds a newline gets
    one entry, and that entry is three rows of the manifest. *)
Lemma extend_manifest_newline_in_name :
  let file := PurePath ("a" +:+ newline +:+ "b.fastq") in
  let r := extend_manifest w_ex (init w_ex (PurePath "m.csv")) [file] false in
  suffix_ok file = true /\
  r.1 = Ok tt /\
  _unwritten_lines r.2 =
    [HEADER;
     "a" +:+ newline +:+ "b,/home/u/a" +:+ newline +:+ "b.fastq,Unknown"
       +:+ newline] /\
  length (file_lines (written (drop 1 (_unwritten_lines r.2)))) = 3%nat /\
  length [file] = 1%nat.
Proof. vm_compute. repeat split; reflexivity. Qed.

(** C7, amended.  When [extend_manifest] returns, it has appended exactly
    one entry per input file to the unwritten lines, in the order of the
    files: the stem of the file name, a comma, the absolute path, a comma,
    the direction (the inferred one when inference is on, [Unknown]
    otherwise) and a newline; the written lines are not touched.  When no
    stem and no absolute path holds a line break, each entry is one line,
    so that the rows added to the manifest are as many as the files. *)
Theorem extend_manifest_rows w files infer self self' :
  extend_manifest w self files infer = (Ok tt, self') ->
  exists rows,
    _unwritten_lines self' = _unwritten_lines self ++ rows /\
    _lines self' = _lines self /\
    length rows = length files /\
    Forall2 (fun file r => exists d,
               r = path_stem file +:+ "," +:+
                   path_str (path_absolute w file) +:+ "," +:+
                   value d +:+ newline /\
               if infer then infer_direction w file 100 = Ok d
               else d = Unknown) files rows /\
    (Forall (fun file => no_break (path_stem file) /\
                         no_break (path_str (path_absolute w file))) files ->
     Forall is_line rows /\
     file_lines (written rows) = rows /\
     length (file_lines (written rows)) = length files).
Proof.
  intros H. apply extend_manifest_entries in H as (rows & Hu & Hf & Hl).
  exists rows. split; [exact Hu | split; [exact Hl |]].
  pose proof (Forall2_length _ _ _ Hf) as Hlen.
  split; [by symmetry | split; [exact Hf |]].
  intros Hnb.
  assert (Forall is_line rows) as Hlines.
  { clear Hu Hlen. induction Hf as [|file r files' rows' (d & -> & _) _ IH];
      [constructor |].
    apply Forall_cons in Hnb as [[Hs Hp] Hnb].
    constructor; [by apply entry_is_line | by apply IH]. }
  split; [exact Hlines |].
  rewrite (file_lines_written _ Hlines). split; [reflexivity | by symmetry].
Qed.

Lemma extend_manifest_rows_witness :
  exists self',
    extend_manifest w_ex (init w_ex (PurePath "m.csv"))
      [PurePath "fwd.fastq"; PurePath "rev.fastq"] true = (Ok tt, self') /\
    exists rows,
      _unwritten_lines self' = [HEADER] ++ rows /\
      length (file_lines (written rows)) = 2%nat.
Proof.
  eexists. split; [reflexivity |].
  destruct (extend_manifest_rows w_ex
              [PurePath "fwd.fastq"; PurePath "rev.fastq"] true
              (init w_ex (PurePath "m.csv")) _ eq_refl)
    as (rows & Hu & _ & _ & _ & Hl).
  exists rows. split; [exact Hu |].
  refine (proj2 (proj2 (Hl _))).
  repeat constructor.
Defined.

(** X8.  Writing a manifest with [create] and loading the same file with
    [from_file] gives back, behind a new header, the lines that were
    written, one by one, when each of them has its only line break, a
    newline, at its end.  A manifest written with its header thus comes
    back with two headers. *)
Theorem create_then_from_file self w self1 w1 filepath :
  create self w = (Ok tt, self1, w1) ->
  path_str filepath = name self ->
  Forall is_line (_unwritten_lines self) ->
  exists m,
    from_file w1 filepath = Ok m /\
    _lines m = HEADER :: _unwritten_lines self /\
    _unwritten_lines m = [] /\ exists_ m = true.
Proof.
  intros Hc Hp Hl. apply create_Ok in Hc as [_ Ho].
  apply opened_open_r in Ho.
  unfold from_file. rewrite Hp, Ho. simpl. eexists. split; [reflexivity |].
  cbn [_lines _unwritten_lines exists_].
  by rewrite (file_lines_written _ Hl).
Qed.

Lemma create_then_from_file_witness :
  exists m,
    from_file
      (create (add_file (init w_ex (PurePath "m.csv")) "s1" "/home/u/s1.fastq"
                 Forward) w_ex).2 (PurePath "m.csv") = Ok m /\
    _lines m = [HEADER; HEADER; row "s1" "/home/u/s1.fastq" Forward].
Proof.
  destruct (create_then_from_file
              (add_file (init w_ex (PurePath "m.csv")) "s1" "/home/u/s1.fastq"
                 Forward) w_ex _ _ (PurePath "m.csv") eq_refl eq_refl)
    as (m & Hm & Hl & _).
  - repeat constructor; [apply HEADER_is_line |].
    by apply (entry_is_line "s1" "/home/u/s1.fastq" Forward).
  - exists m. split; [exact Hm | exact Hl].
Defined.

(** ** More on [extend_manifest] *)

Lemma extend_manifest_false w files : forall self,
  extend_manifest w self files false =
    (Ok tt,
     {| _path := _path self; name := name self; exists_ := exists_ self;
        _lines := _lines self;
        _unwritten_lines :=
          _unwritten_lines self ++
          map (fun file => row (path_stem file)
                             (path_str (path_absolute w file)) Unknown) files |})
  /\ forall w', cwd w' = cwd w ->
       extend_manifest w' self files false = extend_manifest w self files false.
Proof.
  induction files as [|file files' IH]; intros self; simpl.
  - rewrite app_nil_r. by destruct self.
  - destruct (IH (add_file self (path_stem file)
                    (path_str (path_absolute w file)) Unknown)) as [E1 E2].
    split.
    + rewrite E1. simpl. by rewrite <- app_assoc.
    + intros w' Hw. rewrite <- (E2 w' Hw).
      unfold path_absolute. by rewrite Hw.
Qed.

(** X9.  Without inference [extend_manifest] cannot fail and opens no
    file: it appends one row with direction [Unknown] per file, and the
    result depends on the working directory only. *)
Theorem extend_manifest_no_infer w files self :
  extend_manifest w self files false =
    (Ok tt,
     {| _path := _path self; name := name self; exists_ := exists_ self;
        _lines := _lines self;
        _unwritten_lines :=
          _unwritten_lines self ++
          map (fun file => row (path_stem file)
                             (path_str (path_absolute w file)) Unknown) files |})
  /\ forall w', cwd w' = cwd w ->
       extend_manifest w' self files false = extend_manifest w self files false.
Proof. apply extend_manifest_false. Qed.

(** X10.  When [extend_manifest] raises, inference is on and the exception
    is that of the first file on which [infer_direction] raises; the rows
    of the files before it have been appended and stay in the object. *)
Theorem extend_manifest_failure w files infer : forall self e self',
  extend_manifest w self files infer = (Raise e, self') ->
  infer = true /\
  exists before file after rows,
    files = before ++ file :: after /\
    infer_direction w file 100 = Raise e /\
    Forall2 (fun f r => exists d,
               infer_direction w f 100 = Ok d /\
               r = row (path_stem f) (path_str (path_absolute w f)) d)
      before rows /\
    _unwritten_lines self' = _unwritten_lines self ++ rows /\
    _lines self' = _lines self.
Proof.
  induction files as [|file files' IH]; simpl; intros self e self' H;
    [discriminate |].
  destruct infer.
  - split; [reflexivity |].
    destruct (infer_direction w file 100) as [d|e1] eqn:Ed.
    + apply IH in H as (_ & before & f & after & rows & -> & He & Hf & Hu & Hl).
      exists (file :: before), f, after,
        (row (path_stem file) (path_str (path_absolute w file)) d :: rows).
      simpl in Hu, Hl. rewrite Hu, <- app_assoc.
      repeat split; auto; try (constructor; eauto).
    + injection H as <- <-. exists [], file, files', [].
      rewrite app_nil_r. repeat split; auto; try constructor.
  - by apply IH in H as [? _].
Qed.

Lemma extend_manifest_failure_witness :
  exists self',
    extend_manifest w_ex (init w_ex (PurePath "m.csv"))
      [PurePath "fwd.fastq"; PurePath "bad.fastq"; PurePath "rev.fastq"] true
      = (Raise IndexError, self') /\
    exists rows, _unwritten_lines self' = [HEADER] ++ rows /\ length rows = 1%nat.
Proof.
  eexists. split; [reflexivity |].
  destruct (extend_manifest_failure w_ex
              [PurePath "fwd.fastq"; PurePath "bad.fastq"; PurePath "rev.fastq"]
              true (init w_ex (PurePath "m.csv")) IndexError _ eq_refl)
    as (_ & before & file & after & rows & _ & _ & _ & Hu & _).
  exists rows. split; [exact Hu |].
  apply (f_equal length) in Hu. rewrite length_app in Hu. simpl in Hu. lia.
Defined.

(** ** Stem and suffix *)

Lemma substring_0_length n : String.substring 0 (String.length n) n = n.
Proof. induction n as [|c n IH]; [reflexivity |]. simpl. by rewrite IH. Qed.

Lemma substring_cut n : forall i,
  (i <= String.length n)%nat ->
  String.substring 0 i n +:+ String.substring i (String.length n - i) n = n.
Proof.
  induction n as [|c n IH]; intros [|i] Hi; simpl in *; try lia.
  - reflexivity.
  - by rewrite str_app_nil_l, substring_0_length.
  - rewrite str_app_cons, IH by lia. reflexivity.
Qed.

Lemma suffix_index_bounds n i :
  suffix_index n = Some i -> (0 < i /\ i < String.length n - 1)%nat.
Proof.
  unfold suffix_index. destruct (rfind "." n) as [j|]; [| discriminate].
  destruct ((0 <? j)%nat && (j <? String.length n - 1)%nat) eqn:E;
    [| discriminate].
  intros [= <-]. apply andb_true_iff in E as [H1 H2].
  apply Nat.ltb_lt in H1, H2. lia.
Qed.

(** X11.  The stem and the suffix of a path make up its name.  For a file
    that passes the suffix test of [main], the name is the stem followed by
    [.fastq], and the stem, which becomes the sample id, is not empty. *)
Theorem stem_suffix_name p :
  path_stem p +:+ path_suffix p = path_name p /\
  (suffix_ok p = true ->
   path_name p = path_stem p +:+ ".fastq" /\ path_stem p <> EmptyString).
Proof.
  assert (path_stem p +:+ path_suffix p = path_name p) as Hcut.
  { unfold path_stem, path_suffix.
    destruct (suffix_index (path_name p)) as [i|] eqn:E.
    - apply suffix_index_bounds in E. apply substring_cut. lia.
    - apply str_app_nil_r. }
  split; [exact Hcut |]. unfold suffix_ok. intros Hs.
  apply String.eqb_eq in Hs. rewrite <- Hs in Hcut. split; [done |].
  unfold path_stem, path_suffix in *.
  destruct (suffix_index (path_name p)) as [i|] eqn:E; [| discriminate].
  apply suffix_index_bounds in E.
  destruct (path_name p) as [|c n]; simpl in E; [lia |].
  destruct i; [lia | discriminate].
Qed.

Lemma stem_suffix_name_witness :
  path_name (PurePath "reads/s1.R1.fastq") = "s1.R1" +:+ ".fastq" /\
  path_stem (PurePath "reads/s1.R1.fastq") <> EmptyString.
Proof.
  exact (proj2 (stem_suffix_name (PurePath "reads/s1.R1.fastq")) eq_refl).
Defined.

(** ** Successful runs of [main] *)

Lemma fold_print_end ls : forall w,
  fold_left print_end ls w =
    {| cwd := cwd w; fs := fs w; stdout := stdout w ++ ls |}.
Proof.
  induction ls as [|l ls IH]; intros w; simpl.
  - rewrite app_nil_r. by destruct w.
  - rewrite IH. simpl. by rewrite <- app_assoc.
Qed.

(** A run that returns 0 has passed [setup] and all of [finish]. *)
Lemma main_Ok_0 script_basename args w w' :
  main script_basename args w = (Ok 0%Z, w') ->
  exists manifest manifest',
    setup script_basename args w = inr manifest /\
    extend_manifest w manifest (map PurePath (args_files args))
      (args_infer args) = (Ok tt, manifest') /\
    if truthy (args_append args) then
      from_file w (PurePath (default EmptyString (args_append args)))
        = Ok manifest /\
      exists self1, update manifest' w = (Ok tt, self1, w')
    else if truthy (args_output args) then
      manifest = init w (PurePath (default EmptyString (args_output args))) /\
      exists self1, create manifest' w = (Ok tt, self1, w')
    else
      manifest = init w (PurePath "stdout") /\
      w' = fold_left print_end (_unwritten_lines manifest') w.
Proof.
  unfold main.
  destruct (setup script_basename args w) as [r|manifest] eqn:Hs.
  - intros ->. unfold setup in Hs. repeat case_match; simplify_eq.
  - unfold finish.
    destruct (extend_manifest _ _ _ _) as [[[]|e] manifest'] eqn:He;
      [| discriminate].
    intros H. exists manifest, manifest'. split; [reflexivity |].
    split; [exact He |].
    unfold setup in Hs.
    destruct (truthy (args_append args)); [| destruct (truthy (args_output args))].
    + destruct (update manifest' w) as [[[[]|e] self1] w1] eqn:Hu;
        simplify_eq. split; [| eauto].
      repeat case_match; simplify_eq; reflexivity.
    + destruct (create manifest' w) as [[[[]|e] self1] w1] eqn:Hc;
        simplify_eq. split; [| eauto].
      repeat case_match; simplify_eq; reflexivity.
    + simplify_eq. split; [| reflexivity].
      repeat case_match; simplify_eq; reflexivity.
Qed.

Lemma extend_manifest_name w files infer : forall self,
  name (extend_manifest w self files infer).2 = name self.
Proof.
  induction files as [|file files' IH]; simpl; intros self; [reflexivity |].
  destruct infer; [destruct (infer_direction w file 100) |]; simpl;
    rewrite ?IH; reflexivity.
Qed.

Lemma update_Ok_old self w self1 w1 :
  update self w = (Ok tt, self1, w1) ->
  opened w (name self) (resolve w (name self))
    ((match open_r w (name self) with Ok c => c | Raise _ => EmptyString end)
       +:+ written (_unwritten_lines self)) w1.
Proof.
  unfold update.
  destruct (open_a w (name self)) as [[k w']|e] eqn:Ho; [| discriminate].
  intros [= <- <-]. apply open_a_Ok_old in Ho.
  pose proof (opened_write _ _ _ _ _ (_unwritten_lines self) Ho) as Hw.
  destruct Ho as (_ & -> & _). exact Hw.
Qed.

Lemma opened_frame w s k c w1 :
  opened w s k c w1 ->
  cwd w1 = cwd w /\ stdout w1 = stdout w /\
  forall k', k' <> k -> fs w1 !! k' = fs w !! k'.
Proof.
  intros (_ & _ & _ & _ & ->). repeat split.
  intros k' Hk. simpl. by rewrite lookup_insert_ne.
Qed.

(** X12.  With neither [-o] nor [-a] and without inference, a run whose
    input files all end in [.fastq] and exist returns 0, leaves the
    filesystem alone and prints the header and then one row with direction
    [Unknown] per file, in the order of the command line. *)
Theorem main_stdout script_basename args w :
  let files := map PurePath (args_files args) in
  forallb suffix_ok files = true ->
  forallb (path_exists w) files = true ->
  truthy (args_append args) = false ->
  truthy (args_output args) = false ->
  args_infer args = false ->
  main script_basename args w =
    (Ok 0%Z,
     {| cwd := cwd w; fs := fs w;
        stdout := stdout w ++
          HEADER :: map (fun file => row (path_stem file)
                                       (path_str (path_absolute w file)) Unknown)
                      files |}).
Proof.
  intros files Hs He Ha Ho Hi. unfold main, setup. fold files.
  rewrite Hs, He, Ha, Ho. simpl. unfold finish. fold files.
  rewrite Hi, (proj1 (extend_manifest_false w files _)), Ha, Ho.
  by rewrite fold_print_end.
Qed.

Lemma main_stdout_witness :
  (main "generate_qiime_manifest.py"
     {| args_files := ["fwd.fastq"; "rev.fastq"]; args_output := None;
        args_append := None; args_infer := false;
        args_no_overwrite := false |} w_ex).1 = Ok 0%Z.
Proof.
  rewrite (main_stdout "generate_qiime_manifest.py"
     {| args_files := ["fwd.fastq"; "rev.fastq"]; args_output := None;
        args_append := None; args_infer := false;
        args_no_overwrite := false |} w_ex eq_refl eq_refl eq_refl eq_refl
     eq_refl).
  reflexivity.
Defined.

(** X13.  With [-o], a run that returns 0 leaves, in the file named by the
    last component of the [-o] path, the header followed by one entry per
    input file, in the order of the command line: the stem, a comma, the
    absolute path, a comma, the direction (inferred with [-i], [Unknown]
    without) and a newline.  It prints nothing and touches no other file. *)
Theorem main_output script_basename args w w' s :
  truthy (args_append args) = false ->
  args_output args = Some s -> s <> EmptyString ->
  main script_basename args w = (Ok 0%Z, w') ->
  exists rows,
    Forall2 (fun file r => exists d,
               r = path_stem file +:+ "," +:+
                   path_str (path_absolute w file) +:+ "," +:+
                   value d +:+ newline /\
               if args_infer args then infer_direction w file 100 = Ok d
               else d = Unknown)
      (map PurePath (args_files args)) rows /\
    open_r w' (path_name (PurePath s)) = Ok (HEADER +:+ written rows) /\
    stdout w' = stdout w /\ cwd w' = cwd w /\
    forall k', k' <> resolve w (path_name (PurePath s)) ->
      fs w' !! k' = fs w !! k'.
Proof.
  intros Ha Ho Hs Hm.
  apply main_Ok_0 in Hm as (manifest & manifest' & _ & He & Hm).
  rewrite Ha, Ho in Hm. simpl in Hm.
  destruct (String.eqb_spec s EmptyString) as [|_]; [done |]. simpl in Hm.
  destruct Hm as (-> & self1 & Hc).
  pose proof (extend_manifest_name w (map PurePath (args_files args))
                (args_infer args) (init w (PurePath s))) as Hn.
  rewrite He in Hn. simpl in Hn.
  apply extend_manifest_entries in He as (rows & Hu & Hf & _).
  apply create_Ok in Hc as [_ Hop]. rewrite Hn, Hu in Hop.
  exists rows. split; [exact Hf |].
  split; [exact (opened_open_r _ _ _ _ _ Hop) |].
  destruct (opened_frame _ _ _ _ _ Hop) as (? & ? & ?). auto.
Qed.

Lemma main_output_witness :
  exists rows,
    Forall2 (fun file r => exists d,
               r = path_stem file +:+ "," +:+
                   path_str (path_absolute w_ex file) +:+ "," +:+
                   value d +:+ newline /\
               infer_direction w_ex file 100 = Ok d)
      [PurePath "fwd.fastq"; PurePath "rev.fastq"] rows /\
    open_r (main "generate_qiime_manifest.py"
              {| args_files := ["fwd.fastq"; "rev.fastq"];
                 args_output := Some "out/new.csv"; args_append := None;
                 args_infer := true; args_no_overwrite := true |} w_ex).2
      "new.csv" = Ok (HEADER +:+ written rows).
Proof.
  destruct (main_output "generate_qiime_manifest.py"
              {| args_files := ["fwd.fastq"; "rev.fastq"];
                 args_output := Some "out/new.csv"; args_append := None;
                 args_infer := true; args_no_overwrite := true |} w_ex
              _ "out/new.csv" eq_refl eq_refl ltac:(discriminate) eq_refl)
    as (rows & Hf & Hr & _).
  exists rows. split; [exact Hf | exact Hr].
Defined.

Lemma from_file_Ok w filepath m :
  from_file w filepath = Ok m ->
  name m = path_name filepath /\ _unwritten_lines m = [].
Proof.
  unfold from_file.
  destruct (open_r w (path_str filepath)); simpl; [| discriminate].
  by intros [= <-].
Qed.

(** X14.  With [-a], a run that returns 0 has added, to the file named by
    the last component of the [-a] path and behind what that file held
    (nothing, when it was not there), one entry per input file, in the
    order of the command line and built as for [-o], and no header.  It
    prints nothing and touches no other file. *)
Theorem main_append script_basename args w w' s :
  args_append args = Some s -> s <> EmptyString ->
  main script_basename args w = (Ok 0%Z, w') ->
  exists rows,
    Forall2 (fun file r => exists d,
               r = path_stem file +:+ "," +:+
                   path_str (path_absolute w file) +:+ "," +:+
                   value d +:+ newline /\
               if args_infer args then infer_direction w file 100 = Ok d
               else d = Unknown)
      (map PurePath (args_files args)) rows /\
    open_r w' (path_name (PurePath s)) =
      Ok ((match open_r w (path_name (PurePath s)) with
           | Ok c => c
           | Raise _ => EmptyString
           end) +:+ written rows) /\
    stdout w' = stdout w /\ cwd w' = cwd w /\
    forall k', k' <> resolve w (path_name (PurePath s)) ->
      fs w' !! k' = fs w !! k'.
Proof.
  intros Ha Hs Hm.
  apply main_Ok_0 in Hm as (manifest & manifest' & _ & He & Hm).
  rewrite Ha in Hm. simpl in Hm.
  destruct (String.eqb_spec s EmptyString) as [|_]; [done |]. simpl in Hm.
  destruct Hm as (Hf & self1 & Hu).
  apply from_file_Ok in Hf as [Hname Hpend].
  pose proof (extend_manifest_name w (map PurePath (args_files args))
                (args_infer args) manifest) as Hn.
  rewrite He in Hn. simpl in Hn. rewrite Hname in Hn.
  apply extend_manifest_entries in He as (rows & Hp & Hrows & _).
  rewrite Hpend in Hp. simpl in Hp.
  apply update_Ok_old in Hu. rewrite Hn, Hp in Hu.
  exists rows. split; [exact Hrows |].
  split; [exact (opened_open_r _ _ _ _ _ Hu) |].
  destruct (opened_frame _ _ _ _ _ Hu) as (? & ? & ?). auto.
Qed.

Lemma main_append_witness :
  exists rows,
    Forall2 (fun file r => exists d,
               r = path_stem file +:+ "," +:+
                   path_str (path_absolute w_ex file) +:+ "," +:+
                   value d +:+ newline /\
               infer_direction w_ex file 100 = Ok d)
      [PurePath "fwd.fastq"] rows /\
    open_r (main "generate_qiime_manifest.py"
              {| args_files := ["fwd.fastq"];
                 args_output := None; args_append := Some "out/old.csv";
                 args_infer := true; args_no_overwrite := false |} w_ex).2
      "old.csv" = Ok (EmptyString +:+ written rows).
Proof.
  destruct (main_append "generate_qiime_manifest.py"
              {| args_files := ["fwd.fastq"];
                 args_output := None; args_append := Some "out/old.csv";
                 args_infer := true; args_no_overwrite := false |} w_ex
              _ "out/old.csv" eq_refl ltac:(discriminate) eq_refl)
    as (rows & Hf & Hr & _).
  exists rows. split; [exact Hf | exact Hr].
Defined.

(** ** Failing runs of [main] *)

(** X15.  A run that returns a code other than 0 has printed exactly one
    message and done nothing else: the filesystem is as it was. *)
Theorem main_nonzero_return script_basename args w c :
  (main script_basename args w).1 = Ok c -> c <> 0%Z ->
  exists msg, (main script_basename args w).2 = print w msg.
Proof.
  unfold main, setup, finish, create, update.
  repeat case_match; simplify_eq/=; try done; eauto; intros; simplify_eq.
Qed.

Lemma main_nonzero_return_witness :
  exists msg,
    (main "generate_qiime_manifest.py"
       {| args_files := ["fwd.fastq"; "notes.txt"]; args_output := Some "m.csv";
          args_append := None; args_infer := true;
          args_no_overwrite := false |} w_ex).2 = print w_ex msg.
Proof.
  exact (main_nonzero_return "generate_qiime_manifest.py"
     {| args_files := ["fwd.fastq"; "notes.txt"]; args_output := Some "m.csv";
        args_append := None; args_infer := true;
        args_no_overwrite := false |} w_ex 1%Z eq_refl ltac:(discriminate)).
Defined.

Lemma find_missing w files :
  forallb (path_exists w) files = false ->
  exists x, List.find (fun x => negb (path_exists w x)) files = Some x.
Proof.
  induction files as [|f files' IH]; simpl; [discriminate |].
  destruct (path_exists w f); simpl; eauto.
Qed.

(** X16.  [main] returns 2 exactly when every input name ends in [.fastq]
    and some input file does not exist; the only codes it returns are 0, 1
    and 2. *)
Theorem main_exit_codes script_basename args w :
  let files := map PurePath (args_files args) in
  ((main script_basename args w).1 = Ok 2%Z <->
   forallb suffix_ok files = true /\ forallb (path_exists w) files = false) /\
  (forall c, (main script_basename args w).1 = Ok c ->
     c = 0%Z \/ c = 1%Z \/ c = 2%Z).
Proof.
  intros files. split; [split |].
  - unfold main, setup, finish. fold files.
    destruct (forallb suffix_ok files); simpl; [| discriminate].
    destruct (forallb (path_exists w) files); simpl; [| done].
    repeat case_match; simplify_eq/=; discriminate.
  - intros [Hs He]. unfold main, setup. fold files. rewrite Hs, He. simpl.
    by destruct (find_missing w files He) as [x ->].
  - unfold main, setup, finish.
    intros c. repeat case_match; simplify_eq/=; intros; simplify_eq; auto.
Qed.

Lemma main_exit_codes_witness :
  (main "generate_qiime_manifest.py"
     {| args_files := ["fwd.fastq"; "gone.fastq"]; args_output := None;
        args_append := Some "out/old.csv"; args_infer := true;
        args_no_overwrite := false |} w_ex).1 = Ok 2%Z.
Proof.
  apply (proj1 (main_exit_codes "generate_qiime_manifest.py"
     {| args_files := ["fwd.fastq"; "gone.fastq"]; args_output := None;
        args_append := Some "out/old.csv"; args_infer := true;
        args_no_overwrite := false |} w_ex)).
  split; reflexivity.
Defined.

Lemma open_r_exn w s e :
  open_r w s = Raise e -> e = FileNotFoundError \/ e = IsADirectoryError.
Proof. unfold open_r. repeat case_match; intros; simplify_eq; auto. Qed.

Lemma open_w_exn w s e :
  open_w w s = Raise e -> e = FileNotFoundError \/ e = IsADirectoryError.
Proof. unfold open_w. repeat case_match; intros; simplify_eq; auto. Qed.

Lemma open_a_exn w s e :
  open_a w s = Raise e -> e = FileNotFoundError \/ e = IsADirectoryError.
Proof. unfold open_a. repeat case_match; intros; simplify_eq; auto. Qed.

Lemma extend_manifest_Raise w files infer : forall self e,
  (extend_manifest w self files infer).1 = Raise e ->
  infer = true /\
  exists file, file ∈ files /\ infer_direction w file 100 = Raise e.
Proof.
  induction files as [|file files' IH]; simpl; intros self e; [discriminate |].
  destruct infer.
  - destruct (infer_direction w file 100) as [d|e1] eqn:Ed.
    + intros H. apply IH in H as (_ & f & Hin & He).
      split; [reflexivity |]. exists f. split; [by apply list_elem_of_further | done].
    + simpl. intros [= <-]. split; [reflexivity |].
      exists file. split; [apply list_elem_of_here | done].
  - intros H. by apply IH in H as [? _].
Qed.

(** X17.  An [IndexError] leaves [main] only when inference is on; it is
    then the [IndexError] that [infer_direction] raised on one of the input
    files, and nothing has been written or printed. *)
Theorem main_IndexError script_basename args w :
  (main script_basename args w).1 = Raise IndexError ->
  args_infer args = true /\
  (exists file, file ∈ args_files args /\
     infer_direction w (PurePath file) 100 = Raise IndexError) /\
  main script_basename args w = (Raise IndexError, w).
Proof.
  unfold main.
  destruct (setup script_basename args w) as [r|manifest] eqn:Hs.
  - unfold setup in Hs. intros Hr. exfalso.
    destruct (negb (forallb suffix_ok (map PurePath (args_files args))));
      [simplify_eq/= |].
    destruct (negb (forallb (path_exists w) (map PurePath (args_files args))))
      eqn:He.
    { apply negb_true_iff in He.
      destruct (find_missing w _ He) as [x Hx]. rewrite Hx in Hs.
      simplify_eq/=. }
    destruct (truthy (args_append args)).
    + destruct (negb (path_exists w _)); [simplify_eq/= |].
      unfold from_file in Hs.
      destruct (open_r w _) as [c|e'] eqn:Ho; simplify_eq/=.
      destruct (open_r_exn _ _ _ Ho); discriminate.
    + repeat case_match; simplify_eq/=.
  - unfold finish.
    destruct (extend_manifest w manifest _ _) as [[[]|e'] manifest'] eqn:He.
    + intros Hr. exfalso. revert Hr. unfold update, create.
      repeat case_match; simplify_eq/=; intros; simplify_eq;
        match goal with
        | H : open_w _ _ = Raise _ |- _ =>
            destruct (open_w_exn _ _ _ H); discriminate
        | H : open_a _ _ = Raise _ |- _ =>
            destruct (open_a_exn _ _ _ H); discriminate
        end.
    + simpl. intros [= ->].
      destruct (extend_manifest_Raise w (map PurePath (args_files args))
                  (args_infer args) manifest IndexError)
        as (Hi & p & Hin & Hp); [by rewrite He |].
      apply list_elem_of_fmap in Hin as (file & -> & Hin).
      split; [exact Hi | split; [eauto | reflexivity]].
Qed.

Lemma main_IndexError_witness :
  main "generate_qiime_manifest.py"
    {| args_files := ["fwd.fastq"; "bad.fastq"]; args_output := Some "m.csv";
       args_append := None; args_infer := true;
       args_no_overwrite := false |} w_ex = (Raise IndexError, w_ex).
Proof.
  exact (proj2 (proj2 (main_IndexError "generate_qiime_manifest.py"
    {| args_files := ["fwd.fastq"; "bad.fastq"]; args_output := Some "m.csv";
       args_append := None; args_infer := true;
       args_no_overwrite := false |} w_ex eq_refl))).
Defined.

(** ** The header in the buffers *)

(** X18.  A new manifest holds the header once, and no method changes how
    often the header occurs in the written and unwritten lines together:
    not [add_file], whatever the names, nor [extend_manifest], nor a flush,
    whether it succeeds or raises. *)
Theorem header_count_invariant self :
  (forall w filepath, header_count (buffers (init w filepath)) = 1%nat) /\
  (forall name' file_path d,
     header_count (buffers (add_file self name' file_path d)) =
     header_count (buffers self)) /\
  (forall w files infer,
     header_count (buffers (extend_manifest w self files infer).2) =
     header_count (buffers self)) /\
  (forall w,
     header_count (buffers (create self w).1.2) = header_count (buffers self) /\
     header_count (buffers (update self w).1.2) = header_count (buffers self)).
Proof.
  split; [reflexivity | split; [| split]].
  - intros. apply header_count_add_file.
  - intros. apply header_count_extend.
  - intros w. unfold create, update.
    destruct (open_w w (name self)) as [[??]|?];
      destruct (open_a w (name self)) as [[??]|?]; simpl;
      rewrite ?header_count_flushed; auto.
Qed.
